(** * TapEventPlugin: a shallow embedding and its specification

    Source: [src/browser/eventPlugins/TapEventPlugin.js].

    The plugin keeps five module-level variables (the gesture state) and
    exposes one entry point, [extractEvents], called once per top-level
    browser event.  The embedding passes the module-level variables and the
    native event object explicitly: a call takes the variables and the event
    object as they are before the call and returns them as they are after it,
    together with the returned synthetic event.

    Numbers.  The JavaScript values that reach this code are [undefined],
    [null] and numbers.  Pixel coordinates and millisecond time stamps are
    integers, so a number is modelled as an integer or [NaN]; the only
    non-integer number the code computes is the square root taken by
    [getDistance], which is kept exact as a surd and compared exactly. *)

From Stdlib Require Import ZArith Bool List Lia Reals Lra.
From stdpp Require Import base gmap strings list.

Local Open Scope Z_scope.

(** ** JavaScript values *)

Inductive JsVal : Type :=
  | JsUndefined
  | JsNull
  | JsNaN
  | JsInt (z : Z).

#[global] Instance JsVal_eq_dec : EqDecision JsVal.
Proof. solve_decision. Defined.

(** An object is a finite map from property names to values. *)
Abbreviation JsObject := (gmap string JsVal).

(** [o[k]]: reading a property that is not there gives [undefined]. *)
Definition get (o : JsObject) (k : string) : JsVal :=
  default JsUndefined (o !! k).

(** [k in o]. *)
Definition has (k : string) (o : JsObject) : bool :=
  bool_decide (is_Some (o !! k)).

(** ECMAScript [ToNumber], with [None] for [NaN]. *)
Definition ToNumber (v : JsVal) : option Z :=
  match v with
  | JsUndefined => None
  | JsNull => Some 0
  | JsNaN => None
  | JsInt z => Some z
  end.

Definition arith (op : Z -> Z -> Z) (a b : JsVal) : JsVal :=
  match ToNumber a, ToNumber b with
  | Some x, Some y => JsInt (op x y)
  | _, _ => JsNaN
  end.

(** [a - b], [a + b] on operands that are [undefined], [null] or numbers. *)
Definition js_sub : JsVal -> JsVal -> JsVal := arith Z.sub.
Definition js_add : JsVal -> JsVal -> JsVal := arith Z.add.

(** [Math.pow(a, 2)]. *)
Definition Math_pow_2 (a : JsVal) : JsVal :=
  match ToNumber a with
  | Some x => JsInt (x * x)
  | None => JsNaN
  end.

(** [a < b]: false as soon as one side is [NaN]. *)
Definition js_lt (a b : JsVal) : bool :=
  match ToNumber a, ToNumber b with
  | Some x, Some y => x <? y
  | _, _ => false
  end.

(** [v == null]. *)
Definition eq_null (v : JsVal) : bool :=
  match v with
  | JsUndefined | JsNull => true
  | _ => false
  end.

(** [ToBoolean]: [undefined], [null], [NaN] and [0] are falsy. *)
Definition truthy (v : JsVal) : bool :=
  match v with
  | JsInt z => negb (z =? 0)
  | _ => false
  end.

(** The result of [Math.pow(s, 0.5)]: [NaN], or the exact square root of a
    non-negative integer. *)
Inductive JsSurd : Type :=
  | SurdNaN
  | SurdSqrt (s : Z).

Definition Math_pow_half (v : JsVal) : JsSurd :=
  match ToNumber v with
  | Some s => if s <? 0 then SurdNaN else SurdSqrt s
  | None => SurdNaN
  end.

(** [d < t] for a surd [d] and an integer [t]: for [0 <= s], the square root
    of [s] is below [t] exactly when [t] is positive and [s < t * t]. *)
Definition surd_lt (d : JsSurd) (t : Z) : bool :=
  match d with
  | SurdNaN => false
  | SurdSqrt s => (0 <? t) && (s <? t * t)
  end.

(** ** EventConstants.topLevelTypes *)

(** The seven constants the plugin names, and [topOther] for every other key
    of the table (the event hub hands every top-level event to every
    plugin). *)
Inductive TopLevelType : Type :=
  | topMouseDown
  | topMouseMove
  | topMouseUp
  | topTouchCancel
  | topTouchEnd
  | topTouchStart
  | topTouchMove
  | topOther (name : string).

#[global] Instance TopLevelType_eq_dec : EqDecision TopLevelType.
Proof. solve_decision. Defined.

(** [Array.prototype.indexOf]: the first index holding [x], or [-1]. *)
Fixpoint indexOf_from {A} `{EqDecision A} (l : list A) (x : A) (i : Z) : Z :=
  match l with
  | [] => -1
  | y :: l' => if decide (y = x) then i else indexOf_from l' x (i + 1)
  end.

Definition indexOf {A} `{EqDecision A} (l : list A) (x : A) : Z :=
  indexOf_from l x 0.

Definition isTouch (topLevelType : TopLevelType) : bool :=
  let touchTypes :=
    [topTouchCancel; topTouchEnd; topTouchStart; topTouchMove] in
  0 <=? indexOf touchTypes topLevelType.

(** ** Thresholds and module-level variables *)

Definition tapMoveThreshold : Z := 10.
Definition ignoreMouseThreshold : Z := 750.
Definition tapDelay : Z := 200.
Definition tapMaxTime : Z := 600.

Record Coords : Type := mkCoords { x : JsVal; y : JsVal }.

Record Globals : Type := mkGlobals {
  startCoords : Coords;
  startTime : JsVal;
  lastTouchEvent : JsVal;
  lastTapTime : JsVal;
  trackingTouchEvent : bool
}.

#[global] Instance Coords_eq_dec : EqDecision Coords.
Proof. solve_decision. Defined.

#[global] Instance Globals_eq_dec : EqDecision Globals.
Proof. solve_decision. Defined.

(** The values the module-level [var]s are initialised with. *)
Definition initial : Globals :=
  {| startCoords := {| x := JsNull; y := JsNull |};
     startTime := JsInt 0;
     lastTouchEvent := JsNull;
     lastTapTime := JsInt 0;
     trackingTouchEvent := false |}.

Definition set_startCoords (c : Coords) (g : Globals) : Globals :=
  {| startCoords := c; startTime := startTime g;
     lastTouchEvent := lastTouchEvent g; lastTapTime := lastTapTime g;
     trackingTouchEvent := trackingTouchEvent g |}.

Definition set_startTime (v : JsVal) (g : Globals) : Globals :=
  {| startCoords := startCoords g; startTime := v;
     lastTouchEvent := lastTouchEvent g; lastTapTime := lastTapTime g;
     trackingTouchEvent := trackingTouchEvent g |}.

Definition set_lastTouchEvent (v : JsVal) (g : Globals) : Globals :=
  {| startCoords := startCoords g; startTime := startTime g;
     lastTouchEvent := v; lastTapTime := lastTapTime g;
     trackingTouchEvent := trackingTouchEvent g |}.

Definition set_lastTapTime (v : JsVal) (g : Globals) : Globals :=
  {| startCoords := startCoords g; startTime := startTime g;
     lastTouchEvent := lastTouchEvent g; lastTapTime := v;
     trackingTouchEvent := trackingTouchEvent g |}.

Definition set_trackingTouchEvent (b : bool) (g : Globals) : Globals :=
  {| startCoords := startCoords g; startTime := startTime g;
     lastTouchEvent := lastTouchEvent g; lastTapTime := lastTapTime g;
     trackingTouchEvent := b |}.

Record AxisSpec : Type := mkAxis {
  page : string;
  client : string;
  envScroll : string
}.

Module Axis.

Definition x : AxisSpec :=
  {| page := "pageX"; client := "clientX";
     envScroll := "currentPageScrollLeft" |}.

Definition y : AxisSpec :=
  {| page := "pageY"; client := "clientY";
     envScroll := "currentPageScrollTop" |}.

End Axis.

(** ** The synthetic event handed back to the event hub *)

Inductive DispatchConfig : Type := touchTap.

(** Modelled from the spec: [SyntheticUIEvent.getPooled] is not part of the
    plugin's file.  The spec's output contract is a request carrying the
    target id, the synthetic event kind and the source native event; the
    record keeps exactly these three, under the names of [getPooled]'s
    parameters. *)
Record SyntheticUIEvent : Type := getPooled {
  dispatchConfig : DispatchConfig;
  dispatchMarker : string;
  nativeEvent : JsObject
}.

Record Outcome : Type := mkOutcome {
  returned : option SyntheticUIEvent;
  event_after : JsObject;
  globals_after : Globals
}.

(** ** Registration *)

(** Lines 81-94: the top-level types the plugin asks to be delivered.  The
    three mouse types are always there; the four touch types are pushed
    when [EventPluginUtils.useTouchEvents], an argument here, is set. *)
Definition dependencies (useTouchEvents : bool) : list TopLevelType :=
  let dependencies := [topMouseDown; topMouseMove; topMouseUp] in
  if useTouchEvents
  then dependencies ++
       [topTouchCancel; topTouchEnd; topTouchStart; topTouchMove]
  else dependencies.

(** ** The modules the plugin requires

    [EventPluginUtils.isStartish] and [EventPluginUtils.isEndish] classify a
    top-level type; [TouchEventUtils.extractSingleTouch] gives the one touch
    point of an event, or nothing.  Their files are not part of the plugin,
    so they form an interface: every result below holds whatever an
    implementation computes. *)
Class Collaborators : Type := {
  DOMEventTarget : Type;
  isStartish : TopLevelType -> bool;
  isEndish : TopLevelType -> bool;
  extractSingleTouch : JsObject -> option JsObject
}.

(** ** The plugin *)

Section TapEventPlugin.

Context `{Collaborators}.

(** [ViewportMetrics] is read through the [envScroll] property names; its
    current content is an argument of every function that reads it. *)
Definition getAxisCoordOfEvent (ViewportMetrics : JsObject)
    (axis : AxisSpec) (nativeEvent : JsObject) : JsVal :=
  let singleTouch := extractSingleTouch nativeEvent in
  match singleTouch with
  | Some singleTouch => get singleTouch (page axis)
  | None =>
      if has (page axis) nativeEvent
      then get nativeEvent (page axis)
      else js_add (get nativeEvent (client axis))
                  (get ViewportMetrics (envScroll axis))
  end.

Definition getDistance (ViewportMetrics : JsObject)
    (coords : Coords) (nativeEvent : JsObject) : JsSurd :=
  let pageX := getAxisCoordOfEvent ViewportMetrics Axis.x nativeEvent in
  let pageY := getAxisCoordOfEvent ViewportMetrics Axis.y nativeEvent in
  Math_pow_half
    (js_add (Math_pow_2 (js_sub pageX (x coords)))
            (Math_pow_2 (js_sub pageY (y coords)))).

(** Reads the module-level [startCoords] and [startTime]. *)
Definition touchWithinBoundaries (ViewportMetrics : JsObject)
    (g : Globals) (nativeEvent : JsObject) : bool :=
  surd_lt (getDistance ViewportMetrics (startCoords g) nativeEvent)
          tapMoveThreshold
  && js_lt (js_sub (get nativeEvent "timeStamp") (startTime g))
           (JsInt tapMaxTime).

(** Lines 128-129: an event without a time stamp is given the current time,
    [now] being the value of [+new Date()]. *)
Definition stampEvent (now : Z) (nativeEvent : JsObject) : JsObject :=
  if eq_null (get nativeEvent "timeStamp")
  then <["timeStamp" := JsInt now]> nativeEvent
  else nativeEvent.

(** Lines 131-139, on a stamped event: whether the call returns [null]
    there, and the module-level variables at that point. *)
Definition arbitration (topLevelType : TopLevelType)
    (nativeEvent : JsObject) (g : Globals) : bool * Globals :=
  if isTouch topLevelType then
    let g := set_lastTouchEvent (get nativeEvent "timeStamp") g in
    (js_lt (js_sub (get nativeEvent "timeStamp") (lastTapTime g))
           (JsInt tapDelay), g)
  else
    (truthy (lastTouchEvent g)
     && js_lt (js_sub (get nativeEvent "timeStamp") (lastTouchEvent g))
              (JsInt ignoreMouseThreshold), g).

(** Lines 141-167, on a stamped event that was not turned away: the
    synthetic event, if any, and the module-level variables.
    [EventPropagators.accumulateTwoPhaseDispatches] collects listeners on the
    synthetic event and touches neither the native event nor the module-level
    variables; it is not modelled. *)
Definition gesture (ViewportMetrics : JsObject)
    (topLevelType : TopLevelType) (topLevelTargetID : string)
    (nativeEvent : JsObject) (g : Globals)
    : option SyntheticUIEvent * Globals :=
  if isStartish topLevelType then
    let cx := getAxisCoordOfEvent ViewportMetrics Axis.x nativeEvent in
    let g := set_startCoords {| x := cx; y := y (startCoords g) |} g in
    let cy := getAxisCoordOfEvent ViewportMetrics Axis.y nativeEvent in
    let g := set_startCoords {| x := x (startCoords g); y := cy |} g in
    let g := set_startTime (get nativeEvent "timeStamp") g in
    let g := set_trackingTouchEvent true g in
    (None, g)
  else if isEndish topLevelType then
    let '(event, g) :=
      if trackingTouchEvent g
         && touchWithinBoundaries ViewportMetrics g nativeEvent
      then
        (Some (getPooled touchTap topLevelTargetID nativeEvent),
         set_lastTapTime (get nativeEvent "timeStamp") g)
      else (None, g) in
    let g := set_startCoords {| x := JsInt 0; y := y (startCoords g) |} g in
    let g := set_startCoords {| x := x (startCoords g); y := JsInt 0 |} g in
    let g := set_trackingTouchEvent false g in
    (event, g)
  else
    let g :=
      if trackingTouchEvent g
         && negb (touchWithinBoundaries ViewportMetrics g nativeEvent)
      then set_trackingTouchEvent false g
      else g in
    (None, g).

Definition extractEvents (ViewportMetrics : JsObject) (now : Z)
    (topLevelType : TopLevelType) (topLevelTarget : DOMEventTarget)
    (topLevelTargetID : string) (nativeEvent : JsObject) (g : Globals)
    : Outcome :=
  let nativeEvent := stampEvent now nativeEvent in
  let '(skip, g) := arbitration topLevelType nativeEvent g in
  if skip then
    {| returned := None; event_after := nativeEvent; globals_after := g |}
  else
    let '(event, g) :=
      gesture ViewportMetrics topLevelType topLevelTargetID nativeEvent g in
    {| returned := event; event_after := nativeEvent; globals_after := g |}.

(** ** Event streams *)

(** One call of [extractEvents] by the event hub: its four arguments, and
    the two things it reads from its surroundings, the viewport metrics and
    the clock. *)
Record Call : Type := mkCall {
  call_metrics : JsObject;
  call_now : Z;
  call_type : TopLevelType;
  call_target : DOMEventTarget;
  call_id : string;
  call_event : JsObject
}.

Definition step (c : Call) (g : Globals) : Outcome :=
  extractEvents (call_metrics c) (call_now c) (call_type c) (call_target c)
                (call_id c) (call_event c) g.

(** The module-level variables after a stream of calls, oldest first. *)
Definition run (g : Globals) (cs : list Call) : Globals :=
  fold_left (fun g c => globals_after (step c g)) cs g.

(** The event of a call as the body of [extractEvents] sees it, and its
    time stamp. *)
Definition stamped (c : Call) : JsObject :=
  stampEvent (call_now c) (call_event c).

Definition stamp (c : Call) : JsVal := get (stamped c) "timeStamp".

(** The branch of lines 142-167 a top-level type takes. *)
Inductive Phase : Type := Startish | Endish | Moveish.

Definition phase (t : TopLevelType) : Phase :=
  if isStartish t then Startish
  else if isEndish t then Endish
  else Moveish.

(** A call is admitted when lines 131-139 do not return. *)
Definition admitted (c : Call) (g : Globals) : bool :=
  negb (fst (arbitration (call_type c) (stamped c) g)).

(** Every numeric time stamp of [cs] is at least [t]. *)
Definition notBefore (t : Z) (cs : list Call) : bool :=
  forallb (fun c =>
             match ToNumber (stamp c) with
             | Some u => t <=? u
             | None => true
             end) cs.

(** The numeric time stamps of a stream never decrease. *)
Fixpoint timeOrdered (cs : list Call) : bool :=
  match cs with
  | [] => true
  | c :: cs' =>
      match ToNumber (stamp c) with
      | Some t => notBefore t cs'
      | None => true
      end && timeOrdered cs'
  end.

(** A state no release can tap from: the plugin is idle, or it tracks a
    press whose stored coordinates are not numbers. *)
Definition tapless (g : Globals) : Prop :=
  trackingTouchEvent g = false
  \/ ToNumber (x (startCoords g)) = None
  \/ ToNumber (y (startCoords g)) = None.

(** The synthetic events a stream of calls returns, oldest first. *)
Fixpoint emitted (g : Globals) (cs : list Call) : list SyntheticUIEvent :=
  match cs with
  | [] => []
  | c :: cs' =>
      match returned (step c g) with
      | Some event => [event]
      | None => []
      end ++ emitted (globals_after (step c g)) cs'
  end.

(** The number of calls of a stream that are admitted and take the
    start-ish branch. *)
Fixpoint startsCount (g : Globals) (cs : list Call) : nat :=
  match cs with
  | [] => O
  | c :: cs' =>
      ((if admitted c g
        then match phase (call_type c) with Startish => 1 | _ => 0 end
        else 0)
       + startsCount (globals_after (step c g)) cs')%nat
  end.

End TapEventPlugin.

(** ** An implementation of the required modules *)

(** Modelled from the spec: [EventPluginUtils] and [TouchEventUtils] are not
    part of the plugin's file.  The spec classifies press-down events as
    start-ish, releases and cancellations as end-ish and movement as
    move-ish, and has the touch selector give the active touch point of a
    touch payload or signal absence; here an event lists the page
    coordinates of its touch point under [touchPageX] and [touchPageY]. *)
Definition dom : Collaborators :=
  {| DOMEventTarget := unit;
     isStartish := fun t =>
       match t with topMouseDown | topTouchStart => true | _ => false end;
     isEndish := fun t =>
       match t with
       | topMouseUp | topTouchEnd | topTouchCancel => true
       | _ => false
       end;
     extractSingleTouch := fun e =>
       if has "touchPageX" e
       then Some {[ "pageX" := get e "touchPageX";
                    "pageY" := get e "touchPageY" ]}
       else None |}.

(** A mouse or touch event at page position [(px, py)] and time [t]. *)
Definition mouseAt (px py t : Z) : JsObject :=
  {[ "pageX" := JsInt px; "pageY" := JsInt py; "timeStamp" := JsInt t ]}.

Definition touchAt (px py t : Z) : JsObject :=
  {[ "touchPageX" := JsInt px; "touchPageY" := JsInt py;
     "timeStamp" := JsInt t ]}.

Definition call (t : TopLevelType) (e : JsObject) : @Call dom :=
  @mkCall dom ∅ 0 t (tt : @DOMEventTarget dom) "target" e.

(** * Properties *)

(** ** Numbers *)

Lemma sqrt_lt_IZR (s t : Z) :
  0 <= s -> 0 < t -> (s < t * t <-> (sqrt (IZR s) < IZR t)%R).
Proof.
  intros Hs Ht.
  assert (Hs' : (0 <= IZR s)%R) by (apply IZR_le; exact Hs).
  assert (Ht' : (0 < IZR t)%R) by (apply IZR_lt; exact Ht).
  rewrite <- (sqrt_square (IZR t)) at 1 by lra.
  rewrite <- mult_IZR. split.
  - intros Hlt. apply sqrt_lt_1_alt. split; [exact Hs'|].
    apply IZR_lt. exact Hlt.
  - intros Hlt. apply lt_IZR. apply sqrt_lt_0_alt. exact Hlt.
Qed.

Lemma surd_lt_sqrt (s t : Z) :
  0 <= s -> (surd_lt (SurdSqrt s) t = true <-> (sqrt (IZR s) < IZR t)%R).
Proof.
  intros Hs. unfold surd_lt.
  destruct (Z.ltb_spec 0 t) as [Ht|Ht]; simpl.
  - rewrite Z.ltb_lt. apply sqrt_lt_IZR; assumption.
  - split; [discriminate|]. intros Hlt. exfalso.
    assert (Hle : (IZR t <= 0)%R) by (apply IZR_le; exact Ht).
    pose proof (sqrt_pos (IZR s)). lra.
Qed.

Lemma js_lt_number (a b : JsVal) :
  js_lt a b = true ->
  exists n m, ToNumber a = Some n /\ ToNumber b = Some m /\ n < m.
Proof.
  unfold js_lt. destruct (ToNumber a) as [n|], (ToNumber b) as [m|];
    try discriminate.
  intros Hlt. exists n, m. rewrite Z.ltb_lt in Hlt. auto.
Qed.

Lemma js_sub_number (a b : JsVal) (d : Z) :
  ToNumber (js_sub a b) = Some d ->
  exists n m, ToNumber a = Some n /\ ToNumber b = Some m /\ d = n - m.
Proof.
  unfold js_sub, arith. destruct (ToNumber a) as [n|], (ToNumber b) as [m|];
    simpl; try discriminate.
  intros [= <-]. eauto.
Qed.

Lemma ToNumber_not_null (v : JsVal) (n : Z) :
  eq_null v = false -> ToNumber v = Some n -> v = JsInt n.
Proof. destruct v; simpl; congruence. Qed.

(** ** Module-level variables *)

Lemma set_lastTouchEvent_same (g : Globals) :
  set_lastTouchEvent (lastTouchEvent g) g = g.
Proof. destruct g; reflexivity. Qed.

Section Properties.

Context `{Collaborators}.

(** Stamping leaves a time stamp that is neither [null] nor [undefined],
    and does nothing to an event that has one. *)
Lemma stampEvent_stamped (now : Z) (e : JsObject) :
  eq_null (get (stampEvent now e) "timeStamp") = false.
Proof.
  unfold stampEvent. destruct (eq_null (get e "timeStamp")) eqn:E.
  - unfold get. rewrite lookup_insert_eq. reflexivity.
  - exact E.
Qed.

Lemma stampEvent_idem (now now' : Z) (e : JsObject) :
  stampEvent now' (stampEvent now e) = stampEvent now e.
Proof.
  unfold stampEvent at 1. rewrite stampEvent_stamped. reflexivity.
Qed.

(** Lines 131-139 write [lastTouchEvent] and nothing else. *)
Lemma arbitration_globals (t : TopLevelType) (e : JsObject) (g : Globals) :
  snd (arbitration t e g) =
  set_lastTouchEvent
    (if isTouch t then get e "timeStamp" else lastTouchEvent g) g.
Proof.
  unfold arbitration. destruct (isTouch t); simpl.
  - reflexivity.
  - symmetry. apply set_lastTouchEvent_same.
Qed.

Lemma touchWithinBoundaries_lastTouchEvent (vm : JsObject) (v : JsVal)
    (g : Globals) (e : JsObject) :
  touchWithinBoundaries vm (set_lastTouchEvent v g) e =
  touchWithinBoundaries vm g e.
Proof. reflexivity. Qed.

(** [extractEvents] in terms of its three parts. *)
Lemma extractEvents_eq (vm : JsObject) (now : Z) (t : TopLevelType)
    (tgt : DOMEventTarget) (id : string) (e : JsObject) (g : Globals) :
  extractEvents vm now t tgt id e g =
  let e' := stampEvent now e in
  let a := arbitration t e' g in
  if fst a
  then {| returned := None; event_after := e'; globals_after := snd a |}
  else {| returned := fst (gesture vm t id e' (snd a));
          event_after := e';
          globals_after := snd (gesture vm t id e' (snd a)) |}.
Proof.
  unfold extractEvents. simpl.
  destruct (arbitration t (stampEvent now e) g) as [skip g1]. simpl.
  destruct skip; [reflexivity|].
  destruct (gesture vm t id (stampEvent now e) g1); reflexivity.
Qed.

Lemma step_eq (c : Call) (g : Globals) :
  step c g =
  if admitted c g
  then {| returned :=
            fst (gesture (call_metrics c) (call_type c) (call_id c)
                         (stamped c)
                         (snd (arbitration (call_type c) (stamped c) g)));
          event_after := stamped c;
          globals_after :=
            snd (gesture (call_metrics c) (call_type c) (call_id c)
                         (stamped c)
                         (snd (arbitration (call_type c) (stamped c) g))) |}
  else {| returned := None; event_after := stamped c;
          globals_after :=
            snd (arbitration (call_type c) (stamped c) g) |}.
Proof.
  unfold step, admitted, stamped. rewrite extractEvents_eq. simpl.
  destruct (fst (arbitration _ _ g)); reflexivity.
Qed.

(** The module-level variables a call leaves when it is turned away, and
    the ones the gesture code starts from when it is not. *)
Definition arbitrated (c : Call) (g : Globals) : Globals :=
  set_lastTouchEvent
    (if isTouch (call_type c) then stamp c else lastTouchEvent g) g.

Lemma arbitrated_eq (c : Call) (g : Globals) :
  snd (arbitration (call_type c) (stamped c) g) = arbitrated c g.
Proof. apply arbitration_globals. Qed.

Lemma gesture_end (vm : JsObject) (t : TopLevelType) (id : string)
    (e : JsObject) (g : Globals) :
  phase t = Endish ->
  gesture vm t id e g =
  let tap := trackingTouchEvent g && touchWithinBoundaries vm g e in
  (if tap then Some (getPooled touchTap id e) else None,
   {| startCoords := {| x := JsInt 0; y := JsInt 0 |};
      startTime := startTime g;
      lastTouchEvent := lastTouchEvent g;
      lastTapTime := if tap then get e "timeStamp" else lastTapTime g;
      trackingTouchEvent := false |}).
Proof.
  unfold phase, gesture. destruct (isStartish t); [discriminate|].
  destruct (isEndish t); [|discriminate]. intros _. simpl.
  destruct (trackingTouchEvent g && touchWithinBoundaries vm g e);
    reflexivity.
Qed.

Lemma gesture_move (vm : JsObject) (t : TopLevelType) (id : string)
    (e : JsObject) (g : Globals) :
  phase t = Moveish ->
  gesture vm t id e g =
  (None,
   set_trackingTouchEvent
     (trackingTouchEvent g && touchWithinBoundaries vm g e) g).
Proof.
  unfold phase, gesture. destruct (isStartish t); [discriminate|].
  destruct (isEndish t); [discriminate|]. intros _.
  destruct g as [sc st lte ltt tr]. simpl.
  destruct tr; simpl; [|reflexivity].
  destruct (touchWithinBoundaries vm _ e); reflexivity.
Qed.

Lemma gesture_start (vm : JsObject) (t : TopLevelType) (id : string)
    (e : JsObject) (g : Globals) :
  phase t = Startish ->
  gesture vm t id e g =
  (None,
   {| startCoords := {| x := getAxisCoordOfEvent vm Axis.x e;
                        y := getAxisCoordOfEvent vm Axis.y e |};
      startTime := get e "timeStamp";
      lastTouchEvent := lastTouchEvent g;
      lastTapTime := lastTapTime g;
      trackingTouchEvent := true |}).
Proof.
  unfold phase, gesture. destruct (isStartish t); [reflexivity|].
  destruct (isEndish t); discriminate.
Qed.

(** ** The gate *)

(** C2.  The gate [touchWithinBoundaries] holds if and only if the Euclidean
    distance between the stored start coordinates and the coordinates
    extracted from the event is strictly below [tapMoveThreshold] (10) and
    the event's time stamp minus the stored start time is strictly below
    [tapMaxTime] (600).  A distance of exactly 10, or an elapsed time of
    exactly 600, fails the gate. *)
Theorem touchWithinBoundaries_iff (vm : JsObject) (g : Globals)
    (e : JsObject) (px py sx sy ts t0 : Z) :
  ToNumber (getAxisCoordOfEvent vm Axis.x e) = Some px ->
  ToNumber (getAxisCoordOfEvent vm Axis.y e) = Some py ->
  ToNumber (x (startCoords g)) = Some sx ->
  ToNumber (y (startCoords g)) = Some sy ->
  ToNumber (get e "timeStamp") = Some ts ->
  ToNumber (startTime g) = Some t0 ->
  let distance :=
    sqrt (IZR ((px - sx) * (px - sx) + (py - sy) * (py - sy))) in
  (touchWithinBoundaries vm g e = true <->
   (distance < IZR tapMoveThreshold)%R /\ ts - t0 < tapMaxTime)
  /\ (distance = IZR tapMoveThreshold -> touchWithinBoundaries vm g e = false)
  /\ (ts - t0 = tapMaxTime -> touchWithinBoundaries vm g e = false).
Proof.
  intros Hpx Hpy Hsx Hsy Hts Ht0 distance.
  assert (Hiff : touchWithinBoundaries vm g e = true <->
            (distance < IZR tapMoveThreshold)%R /\ ts - t0 < tapMaxTime).
  { unfold touchWithinBoundaries, getDistance, js_sub, js_add, arith,
      Math_pow_2, Math_pow_half.
    rewrite Hpx, Hpy, Hsx, Hsy. simpl ToNumber.
    set (d2 := (px - sx) * (px - sx) + (py - sy) * (py - sy)).
    assert (Hd2 : 0 <= d2).
    { pose proof (Z.square_nonneg (px - sx)).
      pose proof (Z.square_nonneg (py - sy)). unfold d2. lia. }
    assert (Hge : (d2 <? 0) = false) by (apply Z.ltb_ge; exact Hd2).
    cbv beta iota. rewrite Hge, Hts, Ht0. unfold js_lt. simpl ToNumber.
    rewrite andb_true_iff, (surd_lt_sqrt d2 tapMoveThreshold Hd2), Z.ltb_lt.
    reflexivity. }
  split; [exact Hiff|]. split.
  - intros Heq. apply not_true_is_false. intros Hgate.
    apply Hiff in Hgate. destruct Hgate as [Hlt _]. lra.
  - intros Heq. apply not_true_is_false. intros Hgate.
    apply Hiff in Hgate. destruct Hgate as [_ Hlt]. lia.
Qed.

(** ** A tap *)

(** C1.  When the plugin is tracking and an admitted end-ish event passes
    the gate relative to the stored start, [extractEvents] returns one tap
    made of the event's target id and the native event itself, sets
    [lastTapTime] to the event's time stamp, resets [startCoords] to the
    origin and stops tracking. *)
Theorem end_within_boundaries_taps (c : Call) (g : Globals) :
  trackingTouchEvent g = true ->
  admitted c g = true ->
  phase (call_type c) = Endish ->
  touchWithinBoundaries (call_metrics c) g (stamped c) = true ->
  returned (step c g) = Some (getPooled touchTap (call_id c) (stamped c))
  /\ event_after (step c g) = stamped c
  /\ lastTapTime (globals_after (step c g)) = stamp c
  /\ startCoords (globals_after (step c g)) = {| x := JsInt 0; y := JsInt 0 |}
  /\ trackingTouchEvent (globals_after (step c g)) = false.
Proof.
  intros Htr Hadm Hph Hgate. rewrite step_eq, Hadm. simpl.
  rewrite arbitrated_eq, (gesture_end _ _ _ _ _ Hph). unfold arbitrated.
  rewrite touchWithinBoundaries_lastTouchEvent, Hgate. simpl.
  rewrite Htr. simpl. repeat split; reflexivity.
Qed.

(** ** Device arbitration *)

(** C3.  A touch-origin event first has its time stamp recorded in
    [lastTouchEvent]; if that time stamp minus [lastTapTime] is strictly
    below [tapDelay] (200), the call returns no event and the gesture code
    is not run: [startCoords], [startTime], [trackingTouchEvent] and
    [lastTapTime] are as before, only [lastTouchEvent] has moved. *)
Theorem touch_within_tapDelay_skipped (c : Call) (g : Globals) :
  isTouch (call_type c) = true ->
  lastTouchEvent (globals_after (step c g)) = stamp c
  /\ forall ts tap : Z,
       ToNumber (stamp c) = Some ts ->
       ToNumber (lastTapTime g) = Some tap ->
       ts - tap < tapDelay ->
       returned (step c g) = None
       /\ globals_after (step c g) = set_lastTouchEvent (stamp c) g.
Proof.
  intros Htouch.
  assert (Harb : arbitration (call_type c) (stamped c) g =
                 (js_lt (js_sub (stamp c) (lastTapTime g)) (JsInt tapDelay),
                  set_lastTouchEvent (stamp c) g)).
  { unfold arbitration. rewrite Htouch. reflexivity. }
  split.
  - rewrite step_eq. unfold admitted. rewrite Harb. simpl.
    destruct (js_lt _ _); simpl; [reflexivity|].
    destruct (phase (call_type c)) eqn:Hph.
    + rewrite (gesture_start _ _ _ _ _ Hph). reflexivity.
    + rewrite (gesture_end _ _ _ _ _ Hph). reflexivity.
    + rewrite (gesture_move _ _ _ _ _ Hph). reflexivity.
  - intros ts tap Hts Htap Hlt.
    rewrite step_eq. unfold admitted. rewrite Harb. simpl.
    replace (js_lt (js_sub (stamp c) (lastTapTime g)) (JsInt tapDelay))
      with true.
    + split; reflexivity.
    + symmetry. unfold js_lt, js_sub, arith. rewrite Hts, Htap. simpl.
      apply Z.ltb_lt. exact Hlt.
Qed.

(** X16.  A mouse-origin event that follows a touch with a truthy time
    stamp by less than [ignoreMouseThreshold] is turned away and changes
    nothing. *)
Lemma mouse_after_touch_skipped (c : Call) (g : Globals) (ts touch : Z) :
  isTouch (call_type c) = false ->
  lastTouchEvent g = JsInt touch -> touch <> 0 ->
  ToNumber (stamp c) = Some ts ->
  ts - touch < ignoreMouseThreshold ->
  returned (step c g) = None /\ globals_after (step c g) = g.
Proof.
  intros Hmouse Hlast Hnz Hts Hlt.
  assert (Harb : arbitration (call_type c) (stamped c) g = (true, g)).
  { unfold arbitration. rewrite Hmouse, Hlast. f_equal.
    fold (stamp c). unfold js_lt, js_sub, arith. rewrite Hts. simpl.
    apply andb_true_iff. split.
    - apply negb_true_iff, Z.eqb_neq. exact Hnz.
    - apply Z.ltb_lt. exact Hlt. }
  rewrite step_eq. unfold admitted. rewrite Harb. simpl.
  split; reflexivity.
Qed.

(** ** The gesture state machine *)

(** C6, amended.  An admitted move-ish event never emits a tap and leaves
    [startCoords], [startTime] and [lastTapTime] alone; [lastTouchEvent] is
    the event's time stamp for a touch-origin event and is left alone for a
    mouse-origin one; the plugin keeps tracking exactly when it was tracking
    and the event passes the gate.  So a mouse-origin move-ish event that
    passes the gate, or arrives while the plugin is idle, changes nothing. *)
Theorem move_cancels_outside_boundaries (c : Call) (g : Globals) :
  admitted c g = true ->
  phase (call_type c) = Moveish ->
  let g' := globals_after (step c g) in
  let within := touchWithinBoundaries (call_metrics c) g (stamped c) in
  returned (step c g) = None
  /\ startCoords g' = startCoords g
  /\ startTime g' = startTime g
  /\ lastTapTime g' = lastTapTime g
  /\ lastTouchEvent g' =
       (if isTouch (call_type c) then stamp c else lastTouchEvent g)
  /\ trackingTouchEvent g' = trackingTouchEvent g && within
  /\ (isTouch (call_type c) = false ->
      trackingTouchEvent g = false \/ within = true -> g' = g).
Proof.
  intros Hadm Hph g' within. subst g'. rewrite step_eq, Hadm. simpl.
  rewrite arbitrated_eq, (gesture_move _ _ _ _ _ Hph). simpl.
  unfold arbitrated. rewrite touchWithinBoundaries_lastTouchEvent.
  fold within. repeat split.
  intros Hmouse Hkeep. rewrite Hmouse. destruct g as [sc st lte ltt tr].
  simpl in *. unfold set_trackingTouchEvent. simpl. f_equal.
  destruct Hkeep as [-> | ->]; [reflexivity|]. apply andb_true_r.
Qed.

(** C7, amended.  An admitted end-ish event that arrives while the plugin
    is idle emits nothing, leaves the plugin idle and sets [startCoords] to
    the origin, whatever they were; [startTime] and [lastTapTime] are left
    alone and [lastTouchEvent] is written as device arbitration does.  After
    it, a further admitted end-ish event finds the coordinates at the origin
    and changes nothing but [lastTouchEvent]; if it is of mouse origin it
    changes nothing at all. *)
Theorem end_while_idle_resets (c : Call) (g : Globals) :
  trackingTouchEvent g = false ->
  admitted c g = true ->
  phase (call_type c) = Endish ->
  let g' := globals_after (step c g) in
  returned (step c g) = None
  /\ g' = set_startCoords {| x := JsInt 0; y := JsInt 0 |} (arbitrated c g)
  /\ forall d : Call,
       admitted d g' = true ->
       phase (call_type d) = Endish ->
       returned (step d g') = None
       /\ globals_after (step d g') = arbitrated d g'
       /\ (isTouch (call_type d) = false -> globals_after (step d g') = g').
Proof.
  intros Htr Hadm Hph g'.
  assert (Hidle : forall (k : Call) (h : Globals),
            trackingTouchEvent h = false ->
            admitted k h = true ->
            phase (call_type k) = Endish ->
            returned (step k h) = None
            /\ globals_after (step k h) =
               set_startCoords {| x := JsInt 0; y := JsInt 0 |}
                               (arbitrated k h)).
  { intros k h Hh Hk Hpk. rewrite step_eq, Hk. simpl.
    rewrite arbitrated_eq, (gesture_end _ _ _ _ _ Hpk).
    unfold arbitrated, set_startCoords, set_lastTouchEvent.
    simpl. rewrite Hh. simpl. split; reflexivity. }
  destruct (Hidle c g Htr Hadm Hph) as [Hret Hg'].
  split; [exact Hret|]. split; [exact Hg'|].
  intros d Hd Hpd.
  assert (Htr' : trackingTouchEvent g' = false)
    by (subst g'; rewrite Hg'; exact Htr).
  assert (Hsc' : startCoords g' = {| x := JsInt 0; y := JsInt 0 |})
    by (subst g'; rewrite Hg'; reflexivity).
  destruct (Hidle d g' Htr' Hd Hpd) as [Hret' Hg''].
  assert (Hsame : globals_after (step d g') = arbitrated d g').
  { rewrite Hg''. unfold arbitrated, set_startCoords, set_lastTouchEvent.
    simpl. rewrite <- Hsc'. reflexivity. }
  split; [exact Hret'|]. split; [exact Hsame|].
  intros Hmouse. rewrite Hsame. unfold arbitrated. rewrite Hmouse.
  apply set_lastTouchEvent_same.
Qed.

(** ** Missing coordinates *)

Lemma getDistance_NaN (vm : JsObject) (coords : Coords) (e : JsObject) :
  ToNumber (getAxisCoordOfEvent vm Axis.x e) = None
  \/ ToNumber (getAxisCoordOfEvent vm Axis.y e) = None ->
  getDistance vm coords e = SurdNaN.
Proof.
  unfold getDistance, js_add, js_sub, arith, Math_pow_2, Math_pow_half.
  intros [Hx | Hy].
  - rewrite Hx. reflexivity.
  - rewrite Hy.
    destruct (ToNumber (getAxisCoordOfEvent vm Axis.x e)) as [px|];
      [|reflexivity].
    destruct (ToNumber (x coords)); reflexivity.
Qed.

(** C9.  When coordinate extraction gives no number for one of the axes
    ([undefined], or the [NaN] that [undefined + scroll] makes), the gate is
    false; an admitted end-ish or move-ish event then emits nothing and
    leaves the plugin idle, as an event outside the boundaries does.  Every
    function of the plugin is total, so the call always returns. *)
Theorem missing_coordinate_fails_gate (c : Call) (g : Globals) :
  ToNumber (getAxisCoordOfEvent (call_metrics c) Axis.x (stamped c)) = None
  \/ ToNumber (getAxisCoordOfEvent (call_metrics c) Axis.y (stamped c)) = None ->
  touchWithinBoundaries (call_metrics c) g (stamped c) = false
  /\ (admitted c g = true ->
      phase (call_type c) <> Startish ->
      returned (step c g) = None
      /\ trackingTouchEvent (globals_after (step c g)) = false).
Proof.
  intros Hmiss.
  assert (Hgate : forall h,
            touchWithinBoundaries (call_metrics c) h (stamped c) = false).
  { intros h. unfold touchWithinBoundaries.
    rewrite (getDistance_NaN _ _ _ Hmiss). reflexivity. }
  split; [apply Hgate|].
  intros Hadm Hph. rewrite step_eq, Hadm. simpl.
  destruct (phase (call_type c)) eqn:Hp; [congruence| |].
  - rewrite (gesture_end _ _ _ _ _ Hp). simpl.
    rewrite Hgate, andb_false_r. split; reflexivity.
  - rewrite (gesture_move _ _ _ _ _ Hp). simpl.
    rewrite Hgate, andb_false_r. split; reflexivity.
Qed.

(** ** The event object *)

(** C10.  [extractEvents] writes to the event it is given.  When the
    event's [timeStamp] is absent, [undefined] or [null], the event leaves
    the call with the current time in that field, and this happens before
    anything else: the call is the call on the event so written, whatever
    the clock then says.  When the event has a [timeStamp] (a number), the
    event leaves the call as it came. *)
Theorem extractEvents_writes_timeStamp (vm : JsObject) (now : Z)
    (t : TopLevelType) (tgt : DOMEventTarget) (id : string) (e : JsObject)
    (g : Globals) :
  (e !! "timeStamp" = None
   \/ e !! "timeStamp" = Some JsUndefined
   \/ e !! "timeStamp" = Some JsNull ->
   event_after (extractEvents vm now t tgt id e g) =
     <["timeStamp" := JsInt now]> e
   /\ forall now' : Z,
        extractEvents vm now t tgt id e g =
        extractEvents vm now' t tgt id (<["timeStamp" := JsInt now]> e) g)
  /\ (forall v : JsVal,
        e !! "timeStamp" = Some v -> v <> JsUndefined -> v <> JsNull ->
        event_after (extractEvents vm now t tgt id e g) = e).
Proof.
  assert (Hev : event_after (extractEvents vm now t tgt id e g) =
                stampEvent now e).
  { rewrite extractEvents_eq. simpl.
    destruct (fst (arbitration t (stampEvent now e) g)); reflexivity. }
  split.
  - intros Hmissing.
    assert (Hstamp : stampEvent now e = <["timeStamp" := JsInt now]> e).
    { unfold stampEvent, get.
      destruct Hmissing as [-> | [-> | ->]]; reflexivity. }
    split; [rewrite Hev; exact Hstamp|].
    intros now'. rewrite <- Hstamp.
    rewrite (extractEvents_eq vm now'), stampEvent_idem.
    apply extractEvents_eq.
  - intros v Hv Hu Hn. rewrite Hev. unfold stampEvent, get. rewrite Hv.
    destruct v; simpl; congruence.
Qed.

(** ** Streams of events *)

Lemma run_app (g : Globals) (cs ds : list Call) :
  run g (cs ++ ds) = run (run g cs) ds.
Proof. unfold run. apply fold_left_app. Qed.

Lemma run_cons (g : Globals) (c : Call) (cs : list Call) :
  run g (c :: cs) = run (globals_after (step c g)) cs.
Proof. reflexivity. Qed.

Lemma run_snoc (g : Globals) (cs : list Call) (c : Call) :
  run g (cs ++ [c]) = globals_after (step c (run g cs)).
Proof. rewrite run_app. reflexivity. Qed.

(** Where an element sits in a list that was extended at its end. *)
Lemma snoc_split {A : Type} (l l1 l2 : list A) (a d : A) :
  l ++ [a] = l1 ++ d :: l2 ->
  (l2 = [] /\ d = a /\ l1 = l)
  \/ exists l2', l2 = l2' ++ [a] /\ l = l1 ++ d :: l2'.
Proof.
  destruct l2 as [|b l2] using rev_ind.
  - intros Heq. left.
    apply app_inj_tail in Heq. destruct Heq as [-> ->]. auto.
  - clear IHl2. intros Heq. right. exists l2.
    change (l1 ++ d :: l2 ++ [b]) with (l1 ++ (d :: l2) ++ [b]) in Heq.
    rewrite app_assoc in Heq.
    apply app_inj_tail in Heq. destruct Heq as [-> ->]. auto.
Qed.

(** What a call that was turned away leaves. *)
Lemma step_skipped (c : Call) (g : Globals) :
  admitted c g = false ->
  returned (step c g) = None /\ globals_after (step c g) = arbitrated c g.
Proof.
  intros Hadm. rewrite step_eq, Hadm. simpl. rewrite arbitrated_eq.
  split; reflexivity.
Qed.

(** C5.  In every state reached from the initial one by a finite stream of
    events, if the plugin is tracking then some admitted start-ish event of
    the stream gave [startCoords] and [startTime] their values (its
    extracted coordinates and its time stamp), and every event admitted
    after it was move-ish: no later start-ish event replaced it and no
    end-ish event was processed since. *)
Theorem tracking_reflects_last_start (cs : list Call) :
  trackingTouchEvent (run initial cs) = true ->
  exists (pre : list Call) (c : Call) (post : list Call),
    cs = pre ++ c :: post
    /\ admitted c (run initial pre) = true
    /\ phase (call_type c) = Startish
    /\ startCoords (run initial cs) =
         {| x := getAxisCoordOfEvent (call_metrics c) Axis.x (stamped c);
            y := getAxisCoordOfEvent (call_metrics c) Axis.y (stamped c) |}
    /\ startTime (run initial cs) = stamp c
    /\ forall (post1 : list Call) (d : Call) (post2 : list Call),
         post = post1 ++ d :: post2 ->
         admitted d (run initial (pre ++ c :: post1)) = true ->
         phase (call_type d) = Moveish.
Proof.
  induction cs as [|k cs IH] using rev_ind.
  - discriminate.
  - rewrite run_snoc. set (g := run initial cs) in *.
    assert (Hkeep : trackingTouchEvent g = true ->
              startCoords (globals_after (step k g)) = startCoords g ->
              startTime (globals_after (step k g)) = startTime g ->
              (admitted k g = true -> phase (call_type k) = Moveish) ->
              exists pre c post,
                cs ++ [k] = pre ++ c :: post
                /\ admitted c (run initial pre) = true
                /\ phase (call_type c) = Startish
                /\ startCoords (globals_after (step k g)) =
                     {| x := getAxisCoordOfEvent (call_metrics c) Axis.x
                               (stamped c);
                        y := getAxisCoordOfEvent (call_metrics c) Axis.y
                               (stamped c) |}
                /\ startTime (globals_after (step k g)) = stamp c
                /\ forall post1 d post2,
                     post = post1 ++ d :: post2 ->
                     admitted d (run initial (pre ++ c :: post1)) = true ->
                     phase (call_type d) = Moveish).
    { intros Htr Hsc Hst Hk.
      destruct (IH Htr) as (pre & c & post & Hcs & Hadm & Hph & Hc & Ht & Hpost).
      exists pre, c, (post ++ [k]).
      split; [rewrite Hcs, <- app_assoc; reflexivity|].
      split; [exact Hadm|]. split; [exact Hph|].
      split; [rewrite Hsc; exact Hc|]. split; [rewrite Hst; exact Ht|].
      intros post1 d post2 Hsplit Hd.
      apply snoc_split in Hsplit.
      destruct Hsplit as [(-> & -> & ->) | (post2' & -> & Hpost')].
      - apply Hk. rewrite <- Hcs in Hd. exact Hd.
      - apply (Hpost post1 d post2' Hpost' Hd). }
    intros Htr. destruct (admitted k g) eqn:Hadm.
    + rewrite step_eq, Hadm in Htr |- *. simpl in Htr |- *.
      rewrite arbitrated_eq in Htr |- *.
      destruct (phase (call_type k)) eqn:Hph.
      * rewrite (gesture_start _ _ _ _ _ Hph). simpl.
        exists cs, k, []. repeat split; try assumption.
        intros post1 d post2 Hnil. destruct post1; discriminate.
      * rewrite (gesture_end _ _ _ _ _ Hph) in Htr. discriminate.
      * rewrite (gesture_move _ _ _ _ _ Hph) in Htr |- *. simpl in Htr |- *.
        apply andb_true_iff in Htr. destruct Htr as [Htr _].
        assert (Hex := Hkeep Htr).
        rewrite step_eq, Hadm in Hex. simpl in Hex.
        rewrite arbitrated_eq, (gesture_move _ _ _ _ _ Hph) in Hex.
        apply Hex; auto.
    + destruct (step_skipped k g Hadm) as [_ Hg].
      rewrite Hg in Htr |- *. simpl in Htr.
      assert (Hex := Hkeep Htr). rewrite Hg in Hex.
      apply Hex; [reflexivity|reflexivity|discriminate].
Qed.

(** ** Time between taps *)

(** A call that returns a tap has an integer time stamp, records it in
    [lastTapTime], and, when it is of touch origin, comes at least
    [tapDelay] after the tap time recorded before it. *)
Lemma step_tap (c : Call) (g : Globals) :
  returned (step c g) <> None ->
  exists t : Z,
    stamp c = JsInt t
    /\ lastTapTime (globals_after (step c g)) = JsInt t
    /\ (isTouch (call_type c) = true ->
        forall l : Z, ToNumber (lastTapTime g) = Some l -> tapDelay <= t - l).
Proof.
  intros Hret. destruct (admitted c g) eqn:Hadm.
  2:{ destruct (step_skipped c g Hadm) as [Hnone _]. congruence. }
  rewrite step_eq, Hadm in Hret |- *. simpl in Hret |- *.
  rewrite arbitrated_eq in Hret |- *.
  destruct (phase (call_type c)) eqn:Hph.
  - rewrite (gesture_start _ _ _ _ _ Hph) in Hret. simpl in Hret. congruence.
  - rewrite (gesture_end _ _ _ _ _ Hph) in Hret |- *. simpl in Hret |- *.
    destruct (trackingTouchEvent g
              && touchWithinBoundaries (call_metrics c) (arbitrated c g)
                   (stamped c)) eqn:Htap; [|congruence].
    apply andb_true_iff in Htap. destruct Htap as [_ Hgate].
    unfold touchWithinBoundaries in Hgate.
    apply andb_true_iff in Hgate. destruct Hgate as [_ Htime].
    apply js_lt_number in Htime.
    destruct Htime as (n & m & Hn & _ & _).
    apply js_sub_number in Hn. destruct Hn as (t & t0 & Ht & _ & _).
    fold (stamp c) in Ht.
    assert (Hstamp : stamp c = JsInt t).
    { apply ToNumber_not_null; [apply stampEvent_stamped|exact Ht]. }
    exists t. split; [exact Hstamp|]. split; [exact Hstamp|].
    intros Htouch l Hl. unfold admitted, arbitration in Hadm.
    rewrite Htouch in Hadm. simpl in Hadm. fold (stamp c) in Hadm.
    unfold js_lt, js_sub, arith in Hadm. rewrite Ht, Hl in Hadm.
    simpl in Hadm. apply negb_true_iff, Z.ltb_ge in Hadm. exact Hadm.
  - rewrite (gesture_move _ _ _ _ _ Hph) in Hret. simpl in Hret. congruence.
Qed.

(** A call that returns nothing leaves [lastTapTime] alone. *)
Lemma step_no_tap (c : Call) (g : Globals) :
  returned (step c g) = None ->
  lastTapTime (globals_after (step c g)) = lastTapTime g.
Proof.
  destruct (admitted c g) eqn:Hadm.
  2:{ intros _. destruct (step_skipped c g Hadm) as [_ ->]. reflexivity. }
  rewrite step_eq, Hadm. simpl. rewrite arbitrated_eq.
  destruct (phase (call_type c)) eqn:Hph.
  - rewrite (gesture_start _ _ _ _ _ Hph). reflexivity.
  - rewrite (gesture_end _ _ _ _ _ Hph). simpl.
    destruct (trackingTouchEvent g && _); [discriminate|reflexivity].
  - rewrite (gesture_move _ _ _ _ _ Hph). reflexivity.
Qed.

(** Over events that are not stamped before [t], a recorded tap time that
    is at least [t] stays so. *)
Lemma lastTapTime_notBefore (t : Z) (cs : list Call) :
  forall (g : Globals) (l : Z),
    lastTapTime g = JsInt l -> t <= l ->
    notBefore t cs = true ->
    exists l' : Z, lastTapTime (run g cs) = JsInt l' /\ t <= l'.
Proof.
  induction cs as [|k cs IH]; intros g l Hl Hle Hnb.
  - exists l. auto.
  - rewrite run_cons. simpl in Hnb.
    apply andb_true_iff in Hnb. destruct Hnb as [Hk Hnb].
    destruct (returned (step k g)) as [tap|] eqn:Hret.
    + assert (Hsome : returned (step k g) <> None) by congruence.
      destruct (step_tap k g Hsome) as (u & Hu & Hlast & _).
      rewrite Hu in Hk. simpl in Hk. apply Z.leb_le in Hk.
      apply (IH _ u Hlast Hk Hnb).
    + apply (IH _ l); [|exact Hle|exact Hnb].
      rewrite (step_no_tap k g Hret). exact Hl.
Qed.

Lemma timeOrdered_app_r (cs ds : list Call) :
  timeOrdered (cs ++ ds) = true -> timeOrdered ds = true.
Proof.
  induction cs as [|k cs IH]; simpl; [auto|].
  intros Hord. apply andb_true_iff in Hord. apply IH, Hord.
Qed.

Lemma notBefore_app_l (t : Z) (cs ds : list Call) :
  notBefore t (cs ++ ds) = true -> notBefore t cs = true.
Proof.
  unfold notBefore. rewrite forallb_app. intros Hnb.
  apply andb_true_iff in Hnb. apply Hnb.
Qed.

(** X17.  The touch path keeps [tapDelay]: in a stream of events whose
    time stamps never decrease, take any two calls that return a tap, the
    later one of touch origin; the later tap's time stamp minus the earlier
    tap's time stamp, which is the tap time the earlier call recorded, is at
    least [tapDelay] (200). *)
Theorem touch_tap_after_tapDelay (g : Globals) (pre mid post : list Call)
    (c d : Call) :
  timeOrdered (pre ++ c :: mid ++ d :: post) = true ->
  returned (step c (run g pre)) <> None ->
  returned (step d (run g (pre ++ c :: mid))) <> None ->
  isTouch (call_type d) = true ->
  exists tc td : Z,
    stamp c = JsInt tc
    /\ lastTapTime (globals_after (step c (run g pre))) = JsInt tc
    /\ stamp d = JsInt td
    /\ tapDelay <= td - tc.
Proof.
  intros Hord Hc Hd Htouch.
  destruct (step_tap _ _ Hc) as (tc & Htc & Hlast & _).
  destruct (step_tap _ _ Hd) as (td & Htd & _ & Hdelay).
  exists tc, td. split; [exact Htc|]. split; [exact Hlast|].
  split; [exact Htd|].
  apply timeOrdered_app_r in Hord. simpl in Hord.
  apply andb_true_iff in Hord. destruct Hord as [Hnb _].
  rewrite Htc in Hnb. simpl in Hnb. apply notBefore_app_l in Hnb.
  destruct (lastTapTime_notBefore tc mid _ tc Hlast (Z.le_refl tc) Hnb)
    as (l & Hl & Hle).
  rewrite run_app, run_cons in Hdelay.
  assert (Hgap := Hdelay Htouch l).
  rewrite Hl in Hgap. specialize (Hgap eq_refl). lia.
Qed.

End Properties.

(** * Further properties of the plugin *)

(** ** Registration and device origin *)

(** X1.  The types [isTouch] takes for touch-origin are exactly the ones
    [dependencies] adds when touch events are in use: each of them is
    registered with touch support and not without it, and whatever is
    registered without touch support is of mouse origin and stays registered
    with it. *)
Theorem isTouch_dependencies (t : TopLevelType) :
  (isTouch t = true <->
   In t (dependencies true) /\ ~ In t (dependencies false))
  /\ (In t (dependencies false) ->
      isTouch t = false /\ In t (dependencies true)).
Proof.
  destruct t; cbn; intuition (discriminate || congruence).
Qed.

Section Further.

Context `{Collaborators}.

(** ** Coordinates *)

(** X2.  The viewport scroll offsets are read in the fallback only: when
    the event has a single touch point, or carries the page field of the
    axis, the coordinate is the same whatever [ViewportMetrics] holds, and a
    single touch point wins over the event's own fields. *)
Theorem getAxisCoordOfEvent_scroll_unused (vm vm' : JsObject)
    (axis : AxisSpec) (e : JsObject) :
  is_Some (extractSingleTouch e) \/ has (page axis) e = true ->
  getAxisCoordOfEvent vm axis e = getAxisCoordOfEvent vm' axis e
  /\ (forall touch : JsObject,
        extractSingleTouch e = Some touch ->
        getAxisCoordOfEvent vm axis e = get touch (page axis)).
Proof.
  intros Hsrc. unfold getAxisCoordOfEvent. split.
  - destruct (extractSingleTouch e) as [touch|]; [reflexivity|].
    destruct Hsrc as [[touch Hc]|Hpage]; [discriminate|].
    rewrite Hpage. reflexivity.
  - intros touch ->. reflexivity.
Qed.

(** X3.  The fallback: an event without a single touch point and without
    the page field of the axis gets its client coordinate plus the current
    scroll offset, and no number at all when the client coordinate or the
    offset is missing. *)
Theorem getAxisCoordOfEvent_fallback (vm : JsObject) (axis : AxisSpec)
    (e : JsObject) :
  extractSingleTouch e = None ->
  e !! page axis = None ->
  (forall cl scroll : Z,
     e !! client axis = Some (JsInt cl) ->
     vm !! envScroll axis = Some (JsInt scroll) ->
     getAxisCoordOfEvent vm axis e = JsInt (cl + scroll))
  /\ (e !! client axis = None \/ vm !! envScroll axis = None ->
      getAxisCoordOfEvent vm axis e = JsNaN).
Proof.
  intros Htouch Hpage. unfold getAxisCoordOfEvent, has, get.
  rewrite Htouch, Hpage.
  rewrite bool_decide_eq_false_2 by (intros [v Hv]; discriminate).
  split.
  - intros cl scroll -> ->. reflexivity.
  - intros [-> | ->]; simpl; [reflexivity|].
    unfold js_add, arith. destruct (ToNumber _); reflexivity.
Qed.

(** ** The gate on numbers *)

Lemma touchWithinBoundaries_numeric (vm : JsObject) (g : Globals)
    (e : JsObject) (px py sx sy ts t0 : Z) :
  ToNumber (getAxisCoordOfEvent vm Axis.x e) = Some px ->
  ToNumber (getAxisCoordOfEvent vm Axis.y e) = Some py ->
  ToNumber (x (startCoords g)) = Some sx ->
  ToNumber (y (startCoords g)) = Some sy ->
  ToNumber (get e "timeStamp") = Some ts ->
  ToNumber (startTime g) = Some t0 ->
  touchWithinBoundaries vm g e =
  ((px - sx) * (px - sx) + (py - sy) * (py - sy)
     <? tapMoveThreshold * tapMoveThreshold)
  && (ts - t0 <? tapMaxTime).
Proof.
  intros Hpx Hpy Hsx Hsy Hts Ht0.
  unfold touchWithinBoundaries, getDistance, js_sub, js_add, arith,
    Math_pow_2, Math_pow_half.
  rewrite Hpx, Hpy, Hsx, Hsy. simpl ToNumber. cbv beta iota.
  set (d2 := (px - sx) * (px - sx) + (py - sy) * (py - sy)).
  assert (Hd2 : 0 <= d2).
  { pose proof (Z.square_nonneg (px - sx)).
    pose proof (Z.square_nonneg (py - sy)). unfold d2. lia. }
  assert (Hge : (d2 <? 0) = false) by (apply Z.ltb_ge; exact Hd2).
  rewrite Hge, Hts, Ht0. unfold js_lt, surd_lt. reflexivity.
Qed.

(** X4.  The gate has no lower bound on the elapsed time: an event within
    the distance that is stamped at or before the stored start time passes
    it. *)
Theorem touchWithinBoundaries_before_start (vm : JsObject) (g : Globals)
    (e : JsObject) (px py sx sy ts t0 : Z) :
  ToNumber (getAxisCoordOfEvent vm Axis.x e) = Some px ->
  ToNumber (getAxisCoordOfEvent vm Axis.y e) = Some py ->
  ToNumber (x (startCoords g)) = Some sx ->
  ToNumber (y (startCoords g)) = Some sy ->
  ToNumber (get e "timeStamp") = Some ts ->
  ToNumber (startTime g) = Some t0 ->
  (px - sx) * (px - sx) + (py - sy) * (py - sy) < 100 ->
  ts <= t0 ->
  touchWithinBoundaries vm g e = true.
Proof.
  intros Hpx Hpy Hsx Hsy Hts Ht0 Hd Hle.
  rewrite (touchWithinBoundaries_numeric vm g e px py sx sy ts t0)
    by assumption.
  apply andb_true_iff. split; apply Z.ltb_lt.
  - exact Hd.
  - unfold tapMaxTime. lia.
Qed.

(** A stored start coordinate that is no number ([undefined] or [NaN], as
    a press without coordinates leaves it) makes the gate false for every
    event. *)
Lemma touchWithinBoundaries_start_missing (vm : JsObject) (g : Globals) :
  ToNumber (x (startCoords g)) = None
  \/ ToNumber (y (startCoords g)) = None ->
  forall e : JsObject, touchWithinBoundaries vm g e = false.
Proof.
  intros Hmiss e.
  assert (Hsub : forall a b, ToNumber b = None -> js_sub a b = JsNaN).
  { intros a b Hb. unfold js_sub, arith. rewrite Hb.
    destruct (ToNumber a); reflexivity. }
  assert (Hnan : getDistance vm (startCoords g) e = SurdNaN).
  { unfold getDistance. destruct Hmiss as [Hx | Hy].
    - rewrite (Hsub _ _ Hx). reflexivity.
    - rewrite (Hsub _ _ Hy). unfold js_add, arith.
      destruct (ToNumber (Math_pow_2 _)); reflexivity. }
  unfold touchWithinBoundaries. rewrite Hnan. reflexivity.
Qed.

(** ** One call *)

Lemma step_globals (c : Call) (g : Globals) :
  globals_after (step c g) =
  if admitted c g
  then snd (gesture (call_metrics c) (call_type c) (call_id c) (stamped c)
                    (arbitrated c g))
  else arbitrated c g.
Proof.
  rewrite step_eq. destruct (admitted c g); simpl; rewrite arbitrated_eq;
    reflexivity.
Qed.

Lemma step_returned (c : Call) (g : Globals) :
  returned (step c g) =
  if admitted c g
  then fst (gesture (call_metrics c) (call_type c) (call_id c) (stamped c)
                    (arbitrated c g))
  else None.
Proof.
  rewrite step_eq. destruct (admitted c g); simpl; [|reflexivity].
  rewrite arbitrated_eq. reflexivity.
Qed.

(** Rewrites a call into the branch it takes; [Hadm] and [Hph] name the
    facts that select the branch. *)
Ltac by_branch c g Hadm Hph :=
  rewrite ?(step_returned c g), ?(step_globals c g);
  destruct (admitted c g) eqn:Hadm;
  [ destruct (phase (call_type c)) eqn:Hph;
    [ rewrite ?(gesture_start _ _ _ _ _ Hph)
    | rewrite ?(gesture_end _ _ _ _ _ Hph)
    | rewrite ?(gesture_move _ _ _ _ _ Hph) ]
  | ];
  cbn [fst snd].

Lemma step_lastTouchEvent (c : Call) (g : Globals) :
  lastTouchEvent (globals_after (step c g)) =
  if isTouch (call_type c) then stamp c else lastTouchEvent g.
Proof. by_branch c g Hadm Hph; reflexivity. Qed.

(** X5.  An admitted start-ish event always opens a gesture, whatever the
    plugin held before: it returns nothing, stores the event's coordinates
    and time stamp, starts tracking and leaves [lastTapTime] alone.  A press
    that follows a press replaces it. *)
Theorem start_restarts_tracking (c : Call) (g : Globals) :
  admitted c g = true ->
  phase (call_type c) = Startish ->
  returned (step c g) = None
  /\ globals_after (step c g) =
     {| startCoords :=
          {| x := getAxisCoordOfEvent (call_metrics c) Axis.x (stamped c);
             y := getAxisCoordOfEvent (call_metrics c) Axis.y (stamped c) |};
        startTime := stamp c;
        lastTouchEvent :=
          if isTouch (call_type c) then stamp c else lastTouchEvent g;
        lastTapTime := lastTapTime g;
        trackingTouchEvent := true |}
  /\ forall g2 : Globals,
       admitted c g2 = true ->
       lastTapTime g2 = lastTapTime g ->
       lastTouchEvent g2 = lastTouchEvent g ->
       globals_after (step c g2) = globals_after (step c g).
Proof.
  intros Hadm Hph.
  assert (Hall : forall h, admitted c h = true ->
            globals_after (step c h) =
            {| startCoords :=
                 {| x := getAxisCoordOfEvent (call_metrics c) Axis.x (stamped c);
                    y := getAxisCoordOfEvent (call_metrics c) Axis.y (stamped c) |};
               startTime := stamp c;
               lastTouchEvent :=
                 if isTouch (call_type c) then stamp c else lastTouchEvent h;
               lastTapTime := lastTapTime h;
               trackingTouchEvent := true |}).
  { intros h Hh. rewrite step_globals, Hh, (gesture_start _ _ _ _ _ Hph).
    reflexivity. }
  split.
  - rewrite step_returned, Hadm, (gesture_start _ _ _ _ _ Hph). reflexivity.
  - split; [apply Hall, Hadm|].
    intros g2 Hadm2 Htap Htouch.
    rewrite (Hall g2 Hadm2), (Hall g Hadm), Htap, Htouch. reflexivity.
Qed.

(** X6.  A tap is returned by nothing but an admitted end-ish event that
    arrives while the plugin is tracking and passes the gate; the tap is
    then the [touchTap] event for the call's target id and native event. *)
Theorem tap_only_on_release (c : Call) (g : Globals)
    (event : SyntheticUIEvent) :
  returned (step c g) = Some event ->
  admitted c g = true
  /\ phase (call_type c) = Endish
  /\ trackingTouchEvent g = true
  /\ touchWithinBoundaries (call_metrics c) g (stamped c) = true
  /\ event = getPooled touchTap (call_id c) (stamped c).
Proof.
  by_branch c g Hadm Hph; try discriminate.
  unfold arbitrated. rewrite touchWithinBoundaries_lastTouchEvent. simpl.
  destruct (trackingTouchEvent g); [|discriminate].
  destruct (touchWithinBoundaries _ g _); [|discriminate].
  simpl. intros [= <-]. repeat split.
Qed.

(** X7.  A release is final: after an admitted end-ish event, whether it
    tapped or not, the plugin is idle with [startCoords] at the origin and
    [startTime] as before, and the next call, whatever it is, returns
    nothing. *)
Theorem release_is_final (c : Call) (g : Globals) :
  admitted c g = true ->
  phase (call_type c) = Endish ->
  let g' := globals_after (step c g) in
  trackingTouchEvent g' = false
  /\ startCoords g' = {| x := JsInt 0; y := JsInt 0 |}
  /\ startTime g' = startTime g
  /\ forall d : Call, returned (step d g') = None.
Proof.
  intros Hadm Hph g'.
  assert (Hg' : trackingTouchEvent g' = false
                /\ startCoords g' = {| x := JsInt 0; y := JsInt 0 |}
                /\ startTime g' = startTime g).
  { subst g'. rewrite step_globals, Hadm, (gesture_end _ _ _ _ _ Hph).
    repeat split. }
  destruct Hg' as (Htr & Hsc & Hst). repeat split; try assumption.
  intros d. by_branch d g' Hd Hpd; try reflexivity.
  simpl. rewrite Htr. reflexivity.
Qed.

(** X8.  [lastTapTime] changes exactly when a tap is returned, and then to
    the time stamp of the event that tapped. *)
Theorem lastTapTime_follows_taps (c : Call) (g : Globals) :
  lastTapTime (globals_after (step c g)) =
  match returned (step c g) with
  | Some _ => stamp c
  | None => lastTapTime g
  end.
Proof.
  by_branch c g Hadm Hph; try reflexivity.
  simpl. destruct (trackingTouchEvent g && _); reflexivity.
Qed.

(** X9.  A press and a release that go together tap: after an admitted
    start-ish event, an admitted end-ish event whose coordinates are less
    than 10 pixels from the press and whose time stamp is less than 600 ms
    after it returns the tap for the release's target id and event. *)
Theorem press_release_taps (c d : Call) (g : Globals)
    (px py qx qy tc td : Z) :
  admitted c g = true ->
  phase (call_type c) = Startish ->
  admitted d (globals_after (step c g)) = true ->
  phase (call_type d) = Endish ->
  ToNumber (getAxisCoordOfEvent (call_metrics c) Axis.x (stamped c)) = Some px ->
  ToNumber (getAxisCoordOfEvent (call_metrics c) Axis.y (stamped c)) = Some py ->
  ToNumber (getAxisCoordOfEvent (call_metrics d) Axis.x (stamped d)) = Some qx ->
  ToNumber (getAxisCoordOfEvent (call_metrics d) Axis.y (stamped d)) = Some qy ->
  ToNumber (stamp c) = Some tc ->
  ToNumber (stamp d) = Some td ->
  (qx - px) * (qx - px) + (qy - py) * (qy - py) < 100 ->
  td - tc < 600 ->
  returned (step d (globals_after (step c g))) =
    Some (getPooled touchTap (call_id d) (stamped d))
  /\ lastTapTime (globals_after (step d (globals_after (step c g)))) = stamp d.
Proof.
  intros Hc Hpc Hd Hpd Hpx Hpy Hqx Hqy Htc Htd Hdist Htime.
  set (g1 := globals_after (step c g)) in *.
  assert (Hg1 : startCoords g1 =
                  {| x := getAxisCoordOfEvent (call_metrics c) Axis.x (stamped c);
                     y := getAxisCoordOfEvent (call_metrics c) Axis.y (stamped c) |}
                /\ startTime g1 = stamp c
                /\ trackingTouchEvent g1 = true).
  { subst g1. rewrite step_globals, Hc, (gesture_start _ _ _ _ _ Hpc).
    repeat split. }
  destruct Hg1 as (Hsc & Hst & Htr).
  assert (Hgate : touchWithinBoundaries (call_metrics d) g1 (stamped d) = true).
  { rewrite (touchWithinBoundaries_numeric _ g1 _ qx qy px py td tc);
      try assumption; try (rewrite ?Hsc, ?Hst; assumption).
    apply andb_true_iff. split; apply Z.ltb_lt; [exact Hdist|exact Htime]. }
  rewrite step_returned, step_globals, Hd, (gesture_end _ _ _ _ _ Hpd).
  unfold arbitrated. rewrite touchWithinBoundaries_lastTouchEvent. simpl.
  rewrite Htr, Hgate. split; reflexivity.
Qed.

(** X10.  [extractEvents] writes nothing to the event but [timeStamp]:
    every other property is as the caller left it, and the [timeStamp] the
    call leaves is neither [null] nor [undefined]. *)
Theorem extractEvents_event_frame (vm : JsObject) (now : Z)
    (t : TopLevelType) (tgt : DOMEventTarget) (id : string) (e : JsObject)
    (g : Globals) (k : string) :
  k <> "timeStamp" ->
  event_after (extractEvents vm now t tgt id e g) !! k = e !! k
  /\ eq_null (get (event_after (extractEvents vm now t tgt id e g))
                  "timeStamp") = false.
Proof.
  intros Hk.
  assert (Hev : event_after (extractEvents vm now t tgt id e g) =
                stampEvent now e).
  { rewrite extractEvents_eq. simpl.
    destruct (fst (arbitration t (stampEvent now e) g)); reflexivity. }
  rewrite Hev. split; [|apply stampEvent_stamped].
  unfold stampEvent. destruct (eq_null (get e "timeStamp")); [|reflexivity].
  apply lookup_insert_ne. congruence.
Qed.

(** ** Streams *)

Lemma tapless_step (c : Call) (g : Globals) :
  tapless g ->
  (admitted c g = true -> phase (call_type c) <> Startish) ->
  returned (step c g) = None /\ tapless (globals_after (step c g)).
Proof.
  intros Hdead Hns.
  assert (Hgate : trackingTouchEvent g
                  && touchWithinBoundaries (call_metrics c) g (stamped c)
                  = false).
  { destruct Hdead as [-> | Hmiss]; [reflexivity|].
    rewrite (touchWithinBoundaries_start_missing _ _ Hmiss).
    apply andb_false_r. }
  by_branch c g Hadm Hph.
  - exfalso. apply Hns; reflexivity.
  - unfold arbitrated. rewrite touchWithinBoundaries_lastTouchEvent.
    simpl. rewrite Hgate. split; [reflexivity|]. left. reflexivity.
  - unfold arbitrated. rewrite touchWithinBoundaries_lastTouchEvent.
    simpl. rewrite Hgate. split; [reflexivity|]. left. reflexivity.
  - split; [reflexivity|]. exact Hdead.
Qed.

Lemma startsCount_cons_zero (c : Call) (cs : list Call) (g : Globals) :
  startsCount g (c :: cs) = O ->
  (admitted c g = true -> phase (call_type c) <> Startish)
  /\ startsCount (globals_after (step c g)) cs = O.
Proof.
  simpl. intros Hz. split; [|lia].
  intros Hadm Hph. rewrite Hadm, Hph in Hz. discriminate.
Qed.

Lemma tapless_stream (cs : list Call) :
  forall g : Globals,
    tapless g -> startsCount g cs = O ->
    emitted g cs = [] /\ tapless (run g cs).
Proof.
  induction cs as [|c cs IH]; intros g Hdead Hz.
  - split; [reflexivity|exact Hdead].
  - apply startsCount_cons_zero in Hz. destruct Hz as [Hns Hz].
    destruct (tapless_step c g Hdead Hns) as [Hret Hdead'].
    destruct (IH _ Hdead' Hz) as [Hem Hrun].
    rewrite run_cons. simpl. rewrite Hret, Hem. split; [reflexivity|exact Hrun].
Qed.

(** X11.  A move outside the boundaries ends the gesture for good: after
    an admitted move-ish event that fails the gate, no stream of events
    returns a tap until an admitted start-ish event arrives, however close
    to the press a later release is. *)
Theorem cancelled_gesture_never_taps (c : Call) (g : Globals)
    (cs : list Call) :
  admitted c g = true ->
  phase (call_type c) = Moveish ->
  touchWithinBoundaries (call_metrics c) g (stamped c) = false ->
  startsCount (globals_after (step c g)) cs = O ->
  returned (step c g) = None
  /\ emitted (globals_after (step c g)) cs = []
  /\ trackingTouchEvent (run (globals_after (step c g)) cs) = false.
Proof.
  intros Hadm Hph Hgate Hz.
  assert (Hidle : trackingTouchEvent (globals_after (step c g)) = false).
  { rewrite step_globals, Hadm, (gesture_move _ _ _ _ _ Hph).
    unfold arbitrated. rewrite touchWithinBoundaries_lastTouchEvent.
    simpl. rewrite Hgate. apply andb_false_r. }
  split.
  - rewrite step_returned, Hadm, (gesture_move _ _ _ _ _ Hph). reflexivity.
  - assert (Hidle_run : forall (ds : list Call) (h : Globals),
              trackingTouchEvent h = false -> startsCount h ds = O ->
              emitted h ds = [] /\ trackingTouchEvent (run h ds) = false).
    { induction ds as [|d ds IH]; intros h Hh Hzd; [auto|].
      apply startsCount_cons_zero in Hzd. destruct Hzd as [Hns Hzd].
      assert (Hd : returned (step d h) = None
                   /\ trackingTouchEvent (globals_after (step d h)) = false).
      { by_branch d h Hd Hpd.
        - exfalso. apply Hns; reflexivity.
        - simpl. rewrite Hh. split; reflexivity.
        - simpl. rewrite Hh. split; reflexivity.
        - split; [reflexivity|exact Hh]. }
      destruct Hd as [Hret Hh']. destruct (IH _ Hh' Hzd) as [Hem Hrun].
      rewrite run_cons. simpl. rewrite Hret, Hem. auto. }
    apply Hidle_run; assumption.
Qed.

(** X12.  A press without coordinates cannot tap: after an admitted
    start-ish event for which coordinate extraction gives no number on one
    axis, the plugin tracks, and yet no stream of events returns a tap until
    the next admitted start-ish event. *)
Theorem press_without_coordinates_never_taps (c : Call) (g : Globals)
    (cs : list Call) :
  admitted c g = true ->
  phase (call_type c) = Startish ->
  ToNumber (getAxisCoordOfEvent (call_metrics c) Axis.x (stamped c)) = None
  \/ ToNumber (getAxisCoordOfEvent (call_metrics c) Axis.y (stamped c)) = None ->
  startsCount (globals_after (step c g)) cs = O ->
  trackingTouchEvent (globals_after (step c g)) = true
  /\ emitted (globals_after (step c g)) cs = [].
Proof.
  intros Hadm Hph Hmiss Hz.
  assert (Hg : trackingTouchEvent (globals_after (step c g)) = true
               /\ tapless (globals_after (step c g))).
  { rewrite step_globals, Hadm, (gesture_start _ _ _ _ _ Hph).
    split; [reflexivity|]. right. exact Hmiss. }
  destruct Hg as [Htr Hdead]. split; [exact Htr|].
  apply (tapless_stream cs _ Hdead Hz).
Qed.

(** X13.  At most one tap per press: the taps a stream returns are never
    more than its admitted start-ish events, plus one when the stream
    begins while the plugin is tracking. *)
Theorem taps_bounded_by_starts (cs : list Call) :
  forall g : Globals,
    (length (emitted g cs)
     <= startsCount g cs + (if trackingTouchEvent g then 1 else 0))%nat.
Proof.
  induction cs as [|c cs IH]; intros g; simpl; [lia|].
  specialize (IH (globals_after (step c g))).
  rewrite length_app.
  revert IH. by_branch c g Hadm Hph; simpl.
  - lia.
  - destruct (trackingTouchEvent g); simpl; [|lia].
    destruct (touchWithinBoundaries _ _ _); simpl; lia.
  - destruct (trackingTouchEvent g); simpl; [|lia].
    destruct (touchWithinBoundaries _ _ _); simpl; lia.
  - unfold arbitrated. simpl. lia.
Qed.

(** X14.  [lastTouchEvent] is the time stamp of the latest touch-origin
    call, admitted or not: mouse-origin calls never write it, and no branch
    of the gesture code does. *)
Theorem lastTouchEvent_latest_touch (g : Globals) (pre post : list Call)
    (c : Call) :
  isTouch (call_type c) = true ->
  forallb (fun d => negb (isTouch (call_type d))) post = true ->
  lastTouchEvent (run g (pre ++ c :: post)) = stamp c.
Proof.
  intros Htouch Hpost. rewrite run_app, run_cons.
  assert (Hc : lastTouchEvent (globals_after (step c (run g pre))) = stamp c)
    by (rewrite step_lastTouchEvent, Htouch; reflexivity).
  revert Hc. generalize (globals_after (step c (run g pre))).
  induction post as [|d post IH]; intros h Hh; [exact Hh|].
  simpl in Hpost. apply andb_true_iff in Hpost. destruct Hpost as [Hd Hpost].
  rewrite run_cons. apply (IH Hpost).
  rewrite step_lastTouchEvent. apply negb_true_iff in Hd. rewrite Hd.
  exact Hh.
Qed.

(** X15.  Where no touch was recorded, mouse events are never turned
    away: in a stream of mouse-origin calls that starts with a falsy
    [lastTouchEvent] (as initially), every call is admitted and
    [lastTouchEvent] stays as it was. *)
Theorem mouse_only_stream_admitted (cs : list Call) :
  forall g : Globals,
    truthy (lastTouchEvent g) = false ->
    forallb (fun d => negb (isTouch (call_type d))) cs = true ->
    lastTouchEvent (run g cs) = lastTouchEvent g
    /\ forall (pre : list Call) (c : Call) (post : list Call),
         cs = pre ++ c :: post -> admitted c (run g pre) = true.
Proof.
  induction cs as [|k cs IH]; intros g Hfalsy Hmouse.
  - split; [reflexivity|]. intros pre c post Hnil.
    destruct pre; discriminate.
  - simpl in Hmouse. apply andb_true_iff in Hmouse.
    destruct Hmouse as [Hk Hmouse]. apply negb_true_iff in Hk.
    assert (Hlast : lastTouchEvent (globals_after (step k g)) =
                    lastTouchEvent g)
      by (rewrite step_lastTouchEvent, Hk; reflexivity).
    assert (Hfalsy' : truthy (lastTouchEvent (globals_after (step k g)))
                      = false) by (rewrite Hlast; exact Hfalsy).
    destruct (IH _ Hfalsy' Hmouse) as [Hrun Hall].
    rewrite run_cons. split; [rewrite Hrun; exact Hlast|].
    intros pre c post Hsplit. destruct pre as [|k' pre].
    + simpl in Hsplit. injection Hsplit as -> _. simpl.
      unfold admitted, arbitration. rewrite Hk. simpl. rewrite Hfalsy.
      reflexivity.
    + simpl in Hsplit. injection Hsplit as -> Hcs. rewrite run_cons.
      apply (Hall pre c post Hcs).
Qed.

(** Over calls that have integer time stamps, none before [t], a
    recorded touch time that is at least [t] stays so. *)
Lemma lastTouchEvent_notBefore (t : Z) (cs : list Call) :
  forall (g : Globals) (l : Z),
    lastTouchEvent g = JsInt l -> t <= l ->
    notBefore t cs = true ->
    forallb (fun k => bool_decide (is_Some (ToNumber (stamp k)))) cs = true ->
    exists l' : Z, lastTouchEvent (run g cs) = JsInt l' /\ t <= l'.
Proof.
  induction cs as [|k cs IH]; intros g l Hl Hle Hnb Hnum.
  - exists l. auto.
  - rewrite run_cons. simpl in Hnb, Hnum.
    apply andb_true_iff in Hnb. destruct Hnb as [Hk Hnb].
    apply andb_true_iff in Hnum. destruct Hnum as [Hkn Hnum].
    apply bool_decide_eq_true in Hkn. destruct Hkn as [u Hu].
    rewrite Hu in Hk. apply Z.leb_le in Hk.
    destruct (isTouch (call_type k)) eqn:Htouch.
    + apply (IH _ u); [|exact Hk|exact Hnb|exact Hnum].
      rewrite step_lastTouchEvent, Htouch.
      apply ToNumber_not_null; [apply stampEvent_stamped|exact Hu].
    + apply (IH _ l); [|exact Hle|exact Hnb|exact Hnum].
      rewrite step_lastTouchEvent, Htouch. exact Hl.
Qed.

(** X18.  The mouse path is held back by [ignoreMouseThreshold] after a
    touch: in a stream whose time stamps never decrease, after a
    touch-origin call stamped after time 0 (a touch tap, for one) and calls
    that have integer time stamps, a mouse-origin call that returns a tap is
    stamped at least 750 ms after that touch. *)
Theorem mouse_tap_after_touch_tap (g : Globals) (pre mid post : list Call)
    (c d : Call) (tc : Z) :
  timeOrdered (pre ++ c :: mid ++ d :: post) = true ->
  forallb (fun k => bool_decide (is_Some (ToNumber (stamp k)))) mid = true ->
  isTouch (call_type c) = true ->
  stamp c = JsInt tc -> 0 < tc ->
  isTouch (call_type d) = false ->
  returned (step d (run g (pre ++ c :: mid))) <> None ->
  exists td : Z, stamp d = JsInt td /\ ignoreMouseThreshold <= td - tc.
Proof.
  intros Hord Hnum Hc Htc Hpos Hd Htap.
  destruct (step_tap _ _ Htap) as (td & Htd & _ & _).
  exists td. split; [exact Htd|].
  apply timeOrdered_app_r in Hord. simpl in Hord.
  apply andb_true_iff in Hord. destruct Hord as [Hnb _].
  rewrite Htc in Hnb. simpl in Hnb. apply notBefore_app_l in Hnb.
  assert (Hlast : lastTouchEvent (globals_after (step c (run g pre)))
                  = JsInt tc)
    by (rewrite step_lastTouchEvent, Hc; exact Htc).
  destruct (lastTouchEvent_notBefore tc mid _ tc Hlast (Z.le_refl tc) Hnb Hnum)
    as (l & Hl & Hle).
  rewrite run_app, run_cons in Htap.
  set (h := run (globals_after (step c (run g pre))) mid) in *.
  destruct (admitted d h) eqn:Hadm.
  2:{ destruct (step_skipped d h Hadm) as [Hnone _]. congruence. }
  unfold admitted, arbitration in Hadm. rewrite Hd, Hl in Hadm.
  simpl in Hadm. fold (stamp d) in Hadm. rewrite Htd in Hadm.
  unfold js_lt, js_sub, arith in Hadm. simpl in Hadm.
  apply negb_true_iff, andb_false_iff in Hadm.
  destruct Hadm as [Hz | Hlt].
  - apply negb_false_iff, Z.eqb_eq in Hz. lia.
  - apply Z.ltb_ge in Hlt. lia.
Qed.

End Further.

(** * The theorems at concrete events

    The streams below run on [dom].  A press at (100, 100) at time 0 is the
    stream of the spec's acceptance test. *)

#[local] Existing Instance dom.

(** C1 at a mouse press at (100, 100), time 0, released at (103, 104),
    time 300. *)
Lemma end_within_boundaries_taps_witness :
  let g := run initial [call topMouseDown (mouseAt 100 100 0)] in
  let c := call topMouseUp (mouseAt 103 104 300) in
  trackingTouchEvent g = true
  /\ returned (step c g) = Some (getPooled touchTap "target" (mouseAt 103 104 300))
  /\ lastTapTime (globals_after (step c g)) = JsInt 300
  /\ startCoords (globals_after (step c g)) = {| x := JsInt 0; y := JsInt 0 |}
  /\ trackingTouchEvent (globals_after (step c g)) = false.
Proof.
  intros g c.
  destruct (@end_within_boundaries_taps dom c g) as (Hr & _ & Ht & Hc & Hk);
    try (vm_compute; reflexivity).
  split; [vm_compute; reflexivity|].
  split; [exact Hr|]. split; [exact Ht|]. split; [exact Hc|exact Hk].
Defined.

(** C2 at the same press and release: distance 5, elapsed time 300. *)
Lemma touchWithinBoundaries_iff_witness :
  let g := run initial [call topMouseDown (mouseAt 100 100 0)] in
  let e := mouseAt 103 104 300 in
  touchWithinBoundaries (H := dom) ∅ g e = true <->
  (sqrt (IZR ((103 - 100) * (103 - 100) + (104 - 100) * (104 - 100)))
   < IZR tapMoveThreshold)%R /\ 300 - 0 < tapMaxTime.
Proof.
  intros g e.
  apply (@touchWithinBoundaries_iff dom ∅ g e 103 104 100 100 300 0);
    vm_compute; reflexivity.
Defined.

(** C3 at a touch start 100 ms after a touch tap recorded at time 1300. *)
Lemma touch_within_tapDelay_skipped_witness :
  let g := run initial [call topTouchStart (touchAt 100 100 1000);
                        call topTouchEnd (touchAt 103 104 1300)] in
  let c := call topTouchStart (touchAt 100 100 1400) in
  lastTapTime g = JsInt 1300
  /\ lastTouchEvent (globals_after (step c g)) = JsInt 1400
  /\ returned (step c g) = None
  /\ globals_after (step c g) = set_lastTouchEvent (JsInt 1400) g.
Proof.
  intros g c.
  destruct (@touch_within_tapDelay_skipped dom c g) as [Hl Hs];
    [vm_compute; reflexivity|].
  destruct (Hs 1400 1300) as [Hr Hg]; try (vm_compute; reflexivity).
  split; [vm_compute; reflexivity|].
  split; [exact Hl|]. split; [exact Hr|exact Hg].
Defined.

(** C4 at the failing input.  A touch start stamped 0 is recorded as
    [lastTouchEvent = 0]; a mouse press 300 ms later is within
    [ignoreMouseThreshold] of it, and yet it is admitted and starts a
    gesture, because [lastTouchEvent && ...] takes the recorded 0 for
    no touch seen. *)
Example mouse_after_touch_stamped_zero :
  let g := run initial [call topTouchStart (touchAt 5 5 0)] in
  let c := call topMouseDown (mouseAt 5 5 300) in
  lastTouchEvent g = JsInt 0
  /\ isTouch (call_type c) = false
  /\ stamp c = JsInt 300
  /\ 300 - 0 < ignoreMouseThreshold
  /\ admitted c g = true
  /\ trackingTouchEvent g = false
  /\ trackingTouchEvent (globals_after (step c g)) = true
  /\ globals_after (step c g) <> g.
Proof.
  intros g c. repeat split; try (vm_compute; reflexivity).
  vm_compute. discriminate.
Qed.

(** C5 at a press followed by a small move. *)
Lemma tracking_reflects_last_start_witness :
  let cs := [call topMouseDown (mouseAt 100 100 0);
             call topMouseMove (mouseAt 101 100 50)] in
  trackingTouchEvent (run initial cs) = true
  /\ exists (pre : list (@Call dom)) (c : @Call dom) (post : list (@Call dom)),
       cs = pre ++ c :: post
       /\ startCoords (run initial cs) =
            {| x := getAxisCoordOfEvent (H := dom) (call_metrics c) Axis.x
                      (stamped c);
               y := getAxisCoordOfEvent (H := dom) (call_metrics c) Axis.y
                      (stamped c) |}
       /\ startTime (run initial cs) = stamp c.
Proof.
  intros cs. split; [vm_compute; reflexivity|].
  destruct (@tracking_reflects_last_start dom cs)
    as (pre & c & post & Hcs & _ & _ & Hc & Ht & _);
    [vm_compute; reflexivity|].
  exists pre, c, post. split; [exact Hcs|]. split; [exact Hc|exact Ht].
Defined.

(** C6 as stated fails: a touch move that arrives while the plugin is idle
    is admitted and leaves a different state, since its time stamp is
    recorded in [lastTouchEvent]. *)
Lemma move_while_idle_changes_state :
  let c := call topTouchMove (touchAt 5 5 1000) in
  admitted c initial = true
  /\ phase (call_type c) = Moveish
  /\ trackingTouchEvent initial = false
  /\ globals_after (step c initial) <> initial.
Proof.
  intros c. repeat split; try (vm_compute; reflexivity).
  vm_compute. discriminate.
Qed.

(** C6, amended, at a press followed by a move of 50 pixels. *)
Lemma move_cancels_outside_boundaries_witness :
  let g := run initial [call topMouseDown (mouseAt 0 0 0)] in
  let c := call topMouseMove (mouseAt 50 0 50) in
  trackingTouchEvent g = true
  /\ returned (step c g) = None
  /\ startCoords (globals_after (step c g)) = startCoords g
  /\ trackingTouchEvent (globals_after (step c g)) = false.
Proof.
  intros g c.
  destruct (@move_cancels_outside_boundaries dom c g)
    as (Hr & Hc & _ & _ & _ & Hk & _); try (vm_compute; reflexivity).
  split; [vm_compute; reflexivity|].
  split; [exact Hr|]. split; [exact Hc|].
  rewrite Hk. vm_compute. reflexivity.
Defined.

(** C7 as stated fails: after a press at (100, 100) and a move that cancels
    it, the plugin is idle with [startCoords] still at (100, 100); the
    release that follows is admitted, end-ish, and moves them to the
    origin. *)
Lemma end_while_idle_changes_state :
  let g := run initial [call topMouseDown (mouseAt 100 100 0);
                        call topMouseMove (mouseAt 150 100 50)] in
  let c := call topMouseUp (mouseAt 150 100 60) in
  trackingTouchEvent g = false
  /\ admitted c g = true
  /\ phase (call_type c) = Endish
  /\ startCoords g = {| x := JsInt 100; y := JsInt 100 |}
  /\ startCoords (globals_after (step c g)) = {| x := JsInt 0; y := JsInt 0 |}
  /\ globals_after (step c g) <> g.
Proof.
  intros g c. repeat split; try (vm_compute; reflexivity).
  vm_compute. discriminate.
Qed.

(** C7, amended, at the same stream, followed by a second release. *)
Lemma end_while_idle_resets_witness :
  let g := run initial [call topMouseDown (mouseAt 100 100 0);
                        call topMouseMove (mouseAt 150 100 50)] in
  let c := call topMouseUp (mouseAt 150 100 60) in
  let d := call topMouseUp (mouseAt 150 100 70) in
  trackingTouchEvent g = false
  /\ returned (step c g) = None
  /\ returned (step d (globals_after (step c g))) = None
  /\ globals_after (step d (globals_after (step c g))) =
     globals_after (step c g).
Proof.
  intros g c d.
  destruct (@end_while_idle_resets dom c g) as (Hr & _ & Hnext);
    try (vm_compute; reflexivity).
  destruct (Hnext d) as (Hr' & _ & Hsame); try (vm_compute; reflexivity).
  split; [vm_compute; reflexivity|].
  split; [exact Hr|]. split; [exact Hr'|].
  apply Hsame. vm_compute. reflexivity.
Defined.

(** C8 at the failing input.  Line 44 calls [tapDelay] the minimum time
    between tap events, and the touch path tests it; the mouse path does
    not: two mouse clicks in a time-ordered stream return two taps 20 ms
    apart. *)
Lemma mouse_taps_within_tapDelay :
  let pre := [call topMouseDown (mouseAt 0 0 1000)] in
  let c := call topMouseUp (mouseAt 0 0 1010) in
  let mid := [call topMouseDown (mouseAt 0 0 1020)] in
  let d := call topMouseUp (mouseAt 0 0 1030) in
  timeOrdered (pre ++ c :: mid ++ [d]) = true
  /\ returned (step c (run initial pre)) <> None
  /\ returned (step d (run initial (pre ++ c :: mid))) <> None
  /\ stamp c = JsInt 1010
  /\ lastTapTime (globals_after (step c (run initial pre))) = JsInt 1010
  /\ stamp d = JsInt 1030
  /\ 1030 - 1010 < tapDelay.
Proof.
  intros pre c mid d.
  split; [vm_compute; reflexivity|].
  split; [vm_compute; discriminate|].
  split; [vm_compute; discriminate|].
  repeat split; vm_compute; reflexivity.
Qed.

(** X17 at two touch taps. *)
Lemma touch_tap_after_tapDelay_witness :
  let pre := [call topTouchStart (touchAt 0 0 1000)] in
  let c := call topTouchEnd (touchAt 0 0 1300) in
  let mid := [call topTouchStart (touchAt 0 0 1600)] in
  let d := call topTouchEnd (touchAt 0 0 1700) in
  exists tc td : Z,
    stamp c = JsInt tc
    /\ lastTapTime (globals_after (step c (run initial pre))) = JsInt tc
    /\ stamp d = JsInt td
    /\ tapDelay <= td - tc.
Proof.
  intros pre c mid d.
  apply (@touch_tap_after_tapDelay dom initial pre mid [] c d).
  - vm_compute. reflexivity.
  - vm_compute. discriminate.
  - vm_compute. discriminate.
  - vm_compute. reflexivity.
Defined.

(** The spec's rejection tests: a release 30 pixels away, and a release
    700 ms after the press, emit nothing and leave the plugin idle. *)
Example release_too_far :
  let g := run initial [call topMouseDown (mouseAt 100 100 0)] in
  let c := call topMouseUp (mouseAt 130 100 300) in
  returned (step c g) = None
  /\ trackingTouchEvent (globals_after (step c g)) = false.
Proof. split; vm_compute; reflexivity. Qed.

Example release_too_late :
  let g := run initial [call topMouseDown (mouseAt 100 100 0)] in
  let c := call topMouseUp (mouseAt 101 101 700) in
  returned (step c g) = None
  /\ trackingTouchEvent (globals_after (step c g)) = false.
Proof. split; vm_compute; reflexivity. Qed.

(** C9 at a release that carries a time stamp and no coordinates. *)
Lemma missing_coordinate_fails_gate_witness :
  let g := run initial [call topMouseDown (mouseAt 100 100 0)] in
  let c := call topMouseUp {[ "timeStamp" := JsInt 50 ]} in
  getAxisCoordOfEvent (H := dom) ∅ Axis.x (stamped c) = JsNaN
  /\ trackingTouchEvent g = true
  /\ touchWithinBoundaries ∅ g (stamped c) = false
  /\ returned (step c g) = None
  /\ trackingTouchEvent (globals_after (step c g)) = false.
Proof.
  intros g c.
  destruct (@missing_coordinate_fails_gate dom c g) as [Hgate Hstep];
    [left; vm_compute; reflexivity|].
  destruct Hstep as [Hr Hk];
    [vm_compute; reflexivity|vm_compute; discriminate|].
  split; [vm_compute; reflexivity|]. split; [vm_compute; reflexivity|].
  split; [exact Hgate|]. split; [exact Hr|exact Hk].
Defined.

(** * The further properties at concrete events *)

(** X2 at a touch event: the touch point gives the coordinate, whatever the
    scroll offsets are. *)
Lemma getAxisCoordOfEvent_scroll_unused_witness :
  getAxisCoordOfEvent ∅ Axis.x (touchAt 7 8 0) =
  getAxisCoordOfEvent {[ "currentPageScrollLeft" := JsInt 40 ]} Axis.x
                      (touchAt 7 8 0)
  /\ getAxisCoordOfEvent ∅ Axis.x (touchAt 7 8 0) = JsInt 7.
Proof.
  destruct (@getAxisCoordOfEvent_scroll_unused dom ∅
              {[ "currentPageScrollLeft" := JsInt 40 ]} Axis.x (touchAt 7 8 0))
    as [Hsame Htouch]; [left; vm_compute; eauto|].
  split; [exact Hsame|].
  rewrite (Htouch {[ "pageX" := JsInt 7; "pageY" := JsInt 8 ]});
    vm_compute; reflexivity.
Defined.

(** X3 at an event with client coordinates only, on a page scrolled by 20
    pixels. *)
Lemma getAxisCoordOfEvent_fallback_witness :
  getAxisCoordOfEvent {[ "currentPageScrollLeft" := JsInt 20 ]} Axis.x
                      {[ "clientX" := JsInt 5; "timeStamp" := JsInt 0 ]}
  = JsInt (5 + 20)
  /\ getAxisCoordOfEvent {[ "currentPageScrollLeft" := JsInt 20 ]} Axis.y
                         {[ "clientX" := JsInt 5; "timeStamp" := JsInt 0 ]}
     = JsNaN.
Proof.
  split.
  - refine (proj1 (@getAxisCoordOfEvent_fallback dom _ Axis.x _ _ _) 5 20 _ _);
      vm_compute; reflexivity.
  - refine (proj2 (@getAxisCoordOfEvent_fallback dom _ Axis.y _ _ _) _);
      [vm_compute; reflexivity|vm_compute; reflexivity|].
    left. vm_compute. reflexivity.
Defined.

(** X4 at a press stamped 500 and an event stamped 400. *)
Lemma touchWithinBoundaries_before_start_witness :
  let g := run initial [call topMouseDown (mouseAt 100 100 500)] in
  startTime g = JsInt 500
  /\ touchWithinBoundaries ∅ g (mouseAt 101 101 400) = true.
Proof.
  intros g. split; [vm_compute; reflexivity|].
  apply (@touchWithinBoundaries_before_start dom ∅ g (mouseAt 101 101 400)
           101 101 100 100 400 500); vm_compute; reflexivity || discriminate.
Defined.

(** X5 at a second press while the first is still tracked. *)
Lemma start_restarts_tracking_witness :
  let g := run initial [call topMouseDown (mouseAt 100 100 0)] in
  let c := call topMouseDown (mouseAt 30 40 50) in
  trackingTouchEvent g = true
  /\ returned (step c g) = None
  /\ globals_after (step c g) =
     {| startCoords := {| x := JsInt 30; y := JsInt 40 |};
        startTime := JsInt 50;
        lastTouchEvent := JsNull;
        lastTapTime := JsInt 0;
        trackingTouchEvent := true |}
  /\ globals_after (step c initial) = globals_after (step c g).
Proof.
  intros g c.
  destruct (@start_restarts_tracking dom c g) as (Hr & Hg & Hany);
    try (vm_compute; reflexivity).
  split; [vm_compute; reflexivity|]. split; [exact Hr|].
  split; [rewrite Hg; vm_compute; reflexivity|].
  apply Hany; vm_compute; reflexivity.
Defined.

(** X6 at the tap of the acceptance test. *)
Lemma tap_only_on_release_witness :
  let g := run initial [call topMouseDown (mouseAt 100 100 0)] in
  let c := call topMouseUp (mouseAt 103 104 300) in
  admitted c g = true
  /\ phase (call_type c) = Endish
  /\ trackingTouchEvent g = true
  /\ touchWithinBoundaries ∅ g (stamped c) = true.
Proof.
  intros g c.
  destruct (@tap_only_on_release dom c g
              (getPooled touchTap "target" (mouseAt 103 104 300)))
    as (Ha & Hp & Ht & Hw & _); [vm_compute; reflexivity|].
  split; [exact Ha|]. split; [exact Hp|]. split; [exact Ht|exact Hw].
Defined.

(** X7 at a release followed by a second release at the same place. *)
Lemma release_is_final_witness :
  let g := run initial [call topMouseDown (mouseAt 100 100 0)] in
  let c := call topMouseUp (mouseAt 103 104 300) in
  let d := call topMouseUp (mouseAt 103 104 310) in
  returned (step c g) <> None
  /\ trackingTouchEvent (globals_after (step c g)) = false
  /\ returned (step d (globals_after (step c g))) = None.
Proof.
  intros g c d.
  destruct (@release_is_final dom c g) as (Htr & _ & _ & Hnext);
    try (vm_compute; reflexivity).
  split; [vm_compute; discriminate|]. split; [exact Htr|apply Hnext].
Defined.

(** X9 at the press and release of the acceptance test. *)
Lemma press_release_taps_witness :
  let c := call topMouseDown (mouseAt 100 100 0) in
  let d := call topMouseUp (mouseAt 103 104 300) in
  returned (step d (globals_after (step c initial))) =
    Some (getPooled touchTap "target" (mouseAt 103 104 300))
  /\ lastTapTime (globals_after (step d (globals_after (step c initial))))
     = JsInt 300.
Proof.
  intros c d.
  apply (@press_release_taps dom c d initial 100 100 103 104 0 300);
    vm_compute; reflexivity.
Defined.

(** X10 at an event without a time stamp: its page coordinate is as
    before. *)
Lemma extractEvents_event_frame_witness :
  let e : JsObject := {[ "pageX" := JsInt 5; "pageY" := JsInt 6 ]} in
  event_after (extractEvents ∅ 1234 topMouseDown tt "target" e initial)
    !! "pageX" = Some (JsInt 5)
  /\ get (event_after (extractEvents ∅ 1234 topMouseDown tt "target" e
                                     initial)) "timeStamp" = JsInt 1234.
Proof.
  intros e.
  destruct (@extractEvents_event_frame dom ∅ 1234 topMouseDown tt "target"
              e initial "pageX") as [Hk _]; [discriminate|].
  split; [rewrite Hk; vm_compute; reflexivity|vm_compute; reflexivity].
Defined.

(** X11 at the spec's cancellation test: press at (0, 0), move to (50, 0),
    release at (1, 0). *)
Lemma cancelled_gesture_never_taps_witness :
  let g := run initial [call topMouseDown (mouseAt 0 0 0)] in
  let c := call topMouseMove (mouseAt 50 0 50) in
  let cs := [call topMouseUp (mouseAt 1 0 60)] in
  trackingTouchEvent g = true
  /\ returned (step c g) = None
  /\ emitted (globals_after (step c g)) cs = [].
Proof.
  intros g c cs.
  destruct (@cancelled_gesture_never_taps dom c g cs) as (Hr & He & _);
    try (vm_compute; reflexivity).
  split; [vm_compute; reflexivity|]. split; [exact Hr|exact He].
Defined.

(** X12 at a press that carries a time stamp only, released 10 ms later. *)
Lemma press_without_coordinates_never_taps_witness :
  let c := call topMouseDown {[ "timeStamp" := JsInt 0 ]} in
  let cs := [call topMouseUp {[ "timeStamp" := JsInt 10 ]}] in
  trackingTouchEvent (globals_after (step c initial)) = true
  /\ emitted (globals_after (step c initial)) cs = [].
Proof.
  intros c cs.
  apply (@press_without_coordinates_never_taps dom c initial cs);
    try (vm_compute; reflexivity).
  left. vm_compute. reflexivity.
Defined.

(** X14 at a touch start that is turned away and a mouse press after it. *)
Lemma lastTouchEvent_latest_touch_witness :
  let c := call topTouchStart (touchAt 0 0 100) in
  let post := [call topMouseDown (mouseAt 0 0 2000)] in
  admitted c initial = false
  /\ lastTouchEvent (run initial ([] ++ c :: post)) = JsInt 100.
Proof.
  intros c post. split; [vm_compute; reflexivity|].
  apply (@lastTouchEvent_latest_touch dom initial [] post c);
    vm_compute; reflexivity.
Defined.

(** X15 at two mouse clicks 20 ms apart. *)
Lemma mouse_only_stream_admitted_witness :
  let cs := [call topMouseDown (mouseAt 0 0 1000);
             call topMouseUp (mouseAt 0 0 1010);
             call topMouseDown (mouseAt 0 0 1020);
             call topMouseUp (mouseAt 0 0 1030)] in
  lastTouchEvent (run initial cs) = JsNull
  /\ admitted (call topMouseDown (mouseAt 0 0 1020))
              (run initial [call topMouseDown (mouseAt 0 0 1000);
                            call topMouseUp (mouseAt 0 0 1010)]) = true.
Proof.
  intros cs.
  destruct (@mouse_only_stream_admitted dom cs initial) as [Hl Hall];
    try (vm_compute; reflexivity).
  split; [exact Hl|].
  apply (Hall _ _ [call topMouseUp (mouseAt 0 0 1030)]). reflexivity.
Defined.

(** X16 at the spec's phantom-mouse test: a touch at time 100, a mouse
    press at time 400. *)
Lemma mouse_after_touch_skipped_witness :
  let g := run initial [call topTouchEnd (touchAt 0 0 100)] in
  let c := call topMouseDown (mouseAt 0 0 400) in
  lastTouchEvent g = JsInt 100
  /\ returned (step c g) = None
  /\ globals_after (step c g) = g.
Proof.
  intros g c. split; [vm_compute; reflexivity|].
  apply (@mouse_after_touch_skipped dom c g 400 100);
    vm_compute; reflexivity || discriminate.
Defined.

(** C10 at a touch start that comes without a time stamp while the clock
    says 1234, and at a press that carries its own. *)
Lemma extractEvents_writes_timeStamp_witness :
  let e : JsObject := {[ "touchPageX" := JsInt 5; "touchPageY" := JsInt 6 ]} in
  let o := extractEvents ∅ 1234 topTouchStart tt "target" e initial in
  e !! "timeStamp" = None
  /\ event_after o = <["timeStamp" := JsInt 1234]> e
  /\ o = extractEvents ∅ 0 topTouchStart tt "target"
                       (<["timeStamp" := JsInt 1234]> e) initial
  /\ event_after (extractEvents ∅ 1234 topMouseDown tt "target"
                                (mouseAt 5 6 77) initial) = mouseAt 5 6 77.
Proof.
  intros e o.
  destruct (@extractEvents_writes_timeStamp dom ∅ 1234 topTouchStart tt
              "target" e initial) as [Habsent _].
  destruct Habsent as [Hev Hcall]; [left; vm_compute; reflexivity|].
  destruct (@extractEvents_writes_timeStamp dom ∅ 1234 topMouseDown tt
              "target" (mouseAt 5 6 77) initial) as [_ Hpresent].
  split; [vm_compute; reflexivity|]. split; [exact Hev|].
  split; [apply Hcall|].
  apply (Hpresent (JsInt 77)); [vm_compute; reflexivity| |]; discriminate.
Defined.

(** X18 at a touch tap at time 1300 and a mouse click released at 2100. *)
Lemma mouse_tap_after_touch_tap_witness :
  let pre := [call topTouchStart (touchAt 0 0 1000)] in
  let c := call topTouchEnd (touchAt 0 0 1300) in
  let mid := [call topMouseDown (mouseAt 0 0 2050)] in
  let d := call topMouseUp (mouseAt 0 0 2100) in
  returned (step d (run initial (pre ++ c :: mid))) <> None
  /\ exists td : Z, stamp d = JsInt td /\ ignoreMouseThreshold <= td - 1300.
Proof.
  intros pre c mid d. split; [vm_compute; discriminate|].
  apply (@mouse_tap_after_touch_tap dom initial pre mid [] c d 1300);
    try (vm_compute; reflexivity); vm_compute; discriminate.
Defined.
